(** * RKPU 3D viewer: the entity rendering effect of [App.jsx]

    A shallow embedding of the [useEffect] of [src/App.jsx] that rebuilds the
    Cesium entity collection from the loaded aviation data and the panel
    state (layer toggles, obstacle-type toggles, waypoint-source toggles and
    the search term), followed by the properties of that effect.

    Modelling conventions.
    - A JSON number is a rational ([Q]); the code only copies dataset numbers,
      halves an elevation and tests them for truthiness.
    - A JS string is a [string] of bytes; [toLowerCase] folds the letters
      A..Z and leaves every other byte alone.
    - An optional or null JSON field is an [option]; a field the code reads
      without a guard has its plain type.
    - The plain objects [waypointSources] and [obstacleTypes] are finite maps
      over their own keys; a key that is not there reads as [undefined]
      (the members every object inherits, such as [constructor], are left
      out).
    - A template literal is the list of its pieces ([Lit] for text, [Num] for
      an interpolated number, [Fixed] for [toFixed]), so that no number
      formatting has to be modelled.
    - Cesium values are kept as the constructor calls the code makes.
    - Record fields carry a short prefix of their record ([wp_], [obs_], ...)
      since Rocq field names are global. *)

From Stdlib Require Import QArith Ascii.
From stdpp Require Import gmap strings list fin_maps.

Close Scope Q_scope.

(** ** JavaScript helpers *)

Module Js.

(** [String.prototype.toLowerCase], on the letters A..Z. *)
Definition lowerChar (c : ascii) : ascii :=
  let n := nat_of_ascii c in
  if (65 <=? n)%nat && (n <=? 90)%nat then ascii_of_nat (n + 32) else c.

Fixpoint toLowerCase (s : string) : string :=
  match s with
  | EmptyString => EmptyString
  | String c r => String (lowerChar c) (toLowerCase r)
  end.

(** [s.includes(sub)]: [sub] occurs in [s] at some offset. *)
Fixpoint includes (s sub : string) : bool :=
  String.prefix sub s ||
  match s with
  | EmptyString => false
  | String _ r => includes r sub
  end.

(** Truthiness of a string: only the empty string is falsy. *)
Definition truthyString (s : string) : bool :=
  match s with EmptyString => false | _ => true end.

(** Truthiness of a number read from JSON: only zero is falsy. *)
Definition truthyNumber (q : Q) : bool := negb (Qnum q =? 0)%Z.

(** [x || d] where [x] is an optional number and [d] a number. *)
Definition orNumber (x : option Q) (d : Q) : Q :=
  match x with
  | Some q => if truthyNumber q then q else d
  | None => d
  end.

(** [x || y] where both are optional numbers: the result is [x] when it is
    truthy and [y] (whatever it is) otherwise. *)
Definition orOption (x y : option Q) : option Q :=
  match x with
  | Some q => if truthyNumber q then x else y
  | None => y
  end.

(** [x || d] where [x] is an optional string. *)
Definition orString (x : option string) (d : string) : string :=
  match x with
  | Some s => if truthyString s then s else d
  | None => d
  end.

(** Truthiness of [obj[key]] for an object whose values are booleans. *)
Definition truthyAt (obj : gmap string bool) (key : string) : bool :=
  match obj !! key with
  | Some b => b
  | None => false
  end.

(** The number of an array index. *)
Definition ofIndex (i : nat) : Z := Z.of_nat i.

End Js.

(** ** Text produced by template literals *)

Inductive Frag : Type :=
| Lit (s : string)
| Num (q : Q)
| Fixed (digits : nat) (q : Q).

Definition Text : Type := list Frag.

(** ** The Cesium values the effect builds *)

Module Cesium.

Inductive Color : Type :=
| fromCssColorString (css : string)
| BLACK
| WHITE
| withAlpha (c : Color) (alpha : Q).

Inductive Cartesian3 : Type :=
| fromDegrees (lon lat height : Q).

(** [Cartesian3.fromDegreesArray]: consecutive (lon, lat) pairs, on the
    ellipsoid surface. *)
Fixpoint fromDegreesArray (xs : list Q) : list Cartesian3 :=
  match xs with
  | lon :: lat :: r => fromDegrees lon lat 0 :: fromDegreesArray r
  | _ => []
  end.

Inductive Cartesian2 : Type :=
| mkCartesian2 (x y : Q).

Inductive DistanceDisplayCondition : Type :=
| mkDistanceDisplayCondition (near far : Q).

Inductive LabelStyle : Type := FILL_AND_OUTLINE.
Inductive VerticalOrigin : Type := BOTTOM.

Inductive PolygonHierarchy : Type :=
| mkPolygonHierarchy (positions : list Cartesian3).

Inductive Material : Type :=
| ColorMaterial (c : Color)
| PolylineGlowMaterialProperty (glowPower : Q) (color : Color).

Record PointGraphics : Type := {
  pt_pixelSize : Q;
  pt_color : Color;
  pt_outlineColor : Color;
  pt_outlineWidth : Q;
}.

Record LabelGraphics : Type := {
  lbl_text : Text;
  lbl_font : string;
  lbl_fillColor : Color;
  lbl_outlineColor : Color;
  lbl_outlineWidth : Q;
  lbl_style : LabelStyle;
  lbl_verticalOrigin : VerticalOrigin;
  lbl_pixelOffset : Cartesian2;
  lbl_distanceDisplayCondition : DistanceDisplayCondition;
}.

Record CylinderGraphics : Type := {
  cyl_length : Q;
  cyl_topRadius : Q;
  cyl_bottomRadius : Q;
  cyl_material : Color;
  cyl_outline : bool;
  cyl_outlineColor : Color;
}.

Record PolygonGraphics : Type := {
  pg_hierarchy : PolygonHierarchy;
  pg_material : Color;
  pg_outline : bool;
  pg_outlineColor : Color;
  pg_extrudedHeight : Q;
  pg_height : Q;
}.

Record PolylineGraphics : Type := {
  pl_positions : list Cartesian3;
  pl_width : Q;
  pl_material : Material;
  pl_clampToGround : option bool;
}.

(** The options object handed to [viewer.entities.add]. *)
Record Entity : Type := {
  name : Text;
  position : option Cartesian3;
  point : option PointGraphics;
  label : option LabelGraphics;
  cylinder : option CylinderGraphics;
  polygon : option PolygonGraphics;
  polyline : option PolylineGraphics;
  description : Text;
}.

End Cesium.

Import Cesium.

(** ** The dataset ([aviation_data.json]) *)

Record Waypoint : Type := {
  wp_lat : Q;
  wp_lon : Q;
  wp_altitude : option Q;
  wp_sources : list string;
}.

Record Obstacle : Type := {
  obs_id : string;
  obs_type : string;
  obs_lat : Q;
  obs_lon : Q;
  obs_elevation : Q;
}.

(** A coordinate is the array [[lon, lat]]; the code reads [coord[0]] and
    [coord[1]]. *)
Definition Coord : Type := (Q * Q)%type.

Record Airspace : Type := {
  as_name : option string;
  as_base_alt : option Q;
  as_top_alt : option Q;
  as_coordinates : option (list (list Coord));
}.

Record Leg : Type := {
  leg_seq : option Q;
  leg_start_alt : option Q;
  leg_end_alt : option Q;
  leg_coordinates : option (list Coord);
}.

Record Procedure : Type := {
  proc_name : string;
  proc_table : string;
  proc_coordinates : option (list Coord);
  proc_legs : option (list Leg);
}.

Record Procedures : Type := {
  procs_SID : option (list Procedure);
  procs_STAR : option (list Procedure);
  procs_APPROACH : option (list Procedure);
}.

(** [waypoints] is the list [Object.entries(data.waypoints)] yields: the
    keys of a JS object, hence pairwise distinct names. *)
Record Dataset : Type := {
  waypoints : list (string * Waypoint);
  obstacles : list Obstacle;
  airspace : option (list Airspace);
  procedures : Procedures;
}.

(** ** The component state the effect reads *)

Record Layers : Type := {
  l_waypoints : bool;
  l_obstacles : bool;
  l_airspace : bool;
  l_SID : bool;
  l_STAR : bool;
  l_APPROACH : bool;
}.

Record AppState : Type := {
  data : option Dataset;
  layers : Layers;
  waypointSources : gmap string bool;
  obstacleTypes : gmap string bool;
  searchTerm : string;
}.

(** The three keys the procedure loop walks, in its order. *)
Inductive ProcType : Type := SID | STAR | APPROACH.

Definition procTypeName (t : ProcType) : string :=
  match t with SID => "SID" | STAR => "STAR" | APPROACH => "APPROACH" end.

(** [layers[procType]] *)
Definition layerOf (t : ProcType) (l : Layers) : bool :=
  match t with SID => l_SID l | STAR => l_STAR l | APPROACH => l_APPROACH l end.

(** [data.procedures[procType]] *)
Definition proceduresOf (t : ProcType) (p : Procedures) : option (list Procedure) :=
  match t with SID => procs_SID p | STAR => procs_STAR p | APPROACH => procs_APPROACH p end.

(** ** Constants of the module *)

Module COLORS.
Definition SID := fromCssColorString "#00C853".
Definition STAR := fromCssColorString "#FF6D00".
Definition APPROACH := fromCssColorString "#2979FF".
Definition waypoint := fromCssColorString "#FFEB3B".
Definition obstacle_building := fromCssColorString "#F44336".
Definition obstacle_tower := fromCssColorString "#FF5722".
Definition obstacle_natural := fromCssColorString "#4CAF50".
Definition obstacle_tree := fromCssColorString "#8BC34A".
Definition obstacle_navaid := fromCssColorString "#9C27B0".
Definition obstacle_etc := fromCssColorString "#607D8B".
Definition airspace := withAlpha (fromCssColorString "#E91E63") 0.2.
Definition runway := fromCssColorString "#FFFFFF".
End COLORS.

(** [COLORS[procType]] *)
Definition colorOf (t : ProcType) : Color :=
  match t with
  | SID => COLORS.SID
  | STAR => COLORS.STAR
  | APPROACH => COLORS.APPROACH
  end.

Definition OBSTACLE_COLORS : gmap string Color :=
  list_to_map
    [ ("Building", COLORS.obstacle_building);
      ("Tower", COLORS.obstacle_tower);
      ("Natural", COLORS.obstacle_natural);
      ("Tree", COLORS.obstacle_tree);
      ("Navaid", COLORS.obstacle_navaid);
      ("ETC", COLORS.obstacle_etc) ].

(** The initial value of the [obstacleTypes] state. *)
Definition initialObstacleTypes : gmap string bool :=
  list_to_map
    [ ("Building", true); ("Tower", true); ("Natural", true);
      ("Tree", true); ("Navaid", true); ("ETC", true) ].

(** The initial value of the [layers] state. *)
Definition initialLayers : Layers :=
  {| l_waypoints := true; l_obstacles := true; l_airspace := true;
     l_SID := false; l_STAR := false; l_APPROACH := true |}.

(** [toggleObstacleType]: flips the entry, [!undefined] being [true]. *)
Definition toggleObstacleType (type : string) (prev : gmap string bool) : gmap string bool :=
  <[type := negb (Js.truthyAt prev type)]> prev.

(** ** The mutable objects the effect works on *)

(** [entitiesRef.current] after the effect has reset it. *)
Record EntitiesRef : Type := {
  ref_waypoints : list Entity;
  ref_obstacles : list Entity;
  ref_airspace : list Entity;
  ref_procedures : list Entity;
}.

(** What the body of the effect mutates: the entity collection of the
    viewer, in insertion order, and [entitiesRef.current]. *)
Record Scene : Type := {
  viewer_entities : list Entity;
  entitiesRef_current : EntitiesRef;
}.

(** The two refs of the component. [viewerRef] is [None] while no viewer has
    been created, otherwise it holds the entities of the viewer. The initial
    [{}] of [entitiesRef] is never read before the effect overwrites it. *)
Record Refs : Type := {
  viewerRef : option (list Entity);
  entitiesRef : EntitiesRef;
}.

(** ** A state monad for the body of the effect *)

Definition Eff (A : Type) : Type := Scene -> A * Scene.

Definition ret {A : Type} (a : A) : Eff A := fun s => (a, s).

Definition bind {A B : Type} (m : Eff A) (k : A -> Eff B) : Eff B :=
  fun s => let (a, s') := m s in k a s'.

Definition exec {A : Type} (m : Eff A) (s : Scene) : Scene := snd (m s).

Declare Scope eff_scope.
Delimit Scope eff_scope with eff.
Bind Scope eff_scope with Eff.
Notation "x <- m ;; k" := (bind m (fun x => k))
  (at level 100, m at next level, right associativity) : eff_scope.
Notation "m ;; k" := (bind m (fun _ => k))
  (at level 100, right associativity) : eff_scope.
Open Scope eff_scope.

(** [return;] inside a callback. *)
Definition skip : Eff unit := ret tt.

(** [xs.forEach(f)] *)
Fixpoint forEach {A : Type} (xs : list A) (f : A -> Eff unit) : Eff unit :=
  match xs with
  | [] => skip
  | x :: r => f x ;; forEach r f
  end.

(** [xs.forEach((x, idx) => ...)], with [i] the index of the head. *)
Fixpoint forEachFrom {A : Type} (i : nat) (xs : list A) (f : A -> nat -> Eff unit) : Eff unit :=
  match xs with
  | [] => skip
  | x :: r => f x i ;; forEachFrom (S i) r f
  end.

Definition forEachIdx {A : Type} (xs : list A) (f : A -> nat -> Eff unit) : Eff unit :=
  forEachFrom 0 xs f.

(** [viewer.entities.removeAll()] *)
Definition viewer_entities_removeAll : Eff unit :=
  fun s => (tt, {| viewer_entities := []; entitiesRef_current := entitiesRef_current s |}).

(** [viewer.entities.add(options)]: the entity goes last and is returned. *)
Definition viewer_entities_add (e : Entity) : Eff Entity :=
  fun s => (e, {| viewer_entities := viewer_entities s ++ [e];
                  entitiesRef_current := entitiesRef_current s |}).

(** [entitiesRef.current = { waypoints: [], obstacles: [], airspace: [],
    procedures: [] }] *)
Definition entitiesRef_reset : Eff unit :=
  fun s => (tt, {| viewer_entities := viewer_entities s;
                   entitiesRef_current :=
                     {| ref_waypoints := []; ref_obstacles := [];
                        ref_airspace := []; ref_procedures := [] |} |}).

Definition modifyRef (f : EntitiesRef -> EntitiesRef) : Eff unit :=
  fun s => (tt, {| viewer_entities := viewer_entities s;
                   entitiesRef_current := f (entitiesRef_current s) |}).

(** [entitiesRef.current.waypoints.push(entity)] and its three siblings. *)
Definition push_waypoints (e : Entity) : Eff unit :=
  modifyRef (fun r =>
    {| ref_waypoints := ref_waypoints r ++ [e]; ref_obstacles := ref_obstacles r;
       ref_airspace := ref_airspace r; ref_procedures := ref_procedures r |}).

Definition push_obstacles (e : Entity) : Eff unit :=
  modifyRef (fun r =>
    {| ref_waypoints := ref_waypoints r; ref_obstacles := ref_obstacles r ++ [e];
       ref_airspace := ref_airspace r; ref_procedures := ref_procedures r |}).

Definition push_airspace (e : Entity) : Eff unit :=
  modifyRef (fun r =>
    {| ref_waypoints := ref_waypoints r; ref_obstacles := ref_obstacles r;
       ref_airspace := ref_airspace r ++ [e]; ref_procedures := ref_procedures r |}).

Definition push_procedures (e : Entity) : Eff unit :=
  modifyRef (fun r =>
    {| ref_waypoints := ref_waypoints r; ref_obstacles := ref_obstacles r;
       ref_airspace := ref_airspace r; ref_procedures := ref_procedures r ++ [e] |}).

(** ** The entities the effect builds *)

(** [addRunway] *)
Definition runwayEntity : Entity :=
  let runwayStart : Q * Q := (129.3505, 35.5890)%Q in
  let runwayEnd : Q * Q := (129.3530, 35.5978)%Q in
  {| name := [Lit "Runway 18/36"];
     position := None; point := None; label := None;
     cylinder := None; polygon := None;
     polyline := Some
       {| pl_positions :=
            fromDegreesArray [runwayStart.1; runwayStart.2; runwayEnd.1; runwayEnd.2];
          pl_width := 15;
          pl_material := ColorMaterial COLORS.runway;
          pl_clampToGround := Some true |};
     description := [Lit "
        <h3>Runway 18/36</h3>
        <p>울산공항 활주로</p>
      "] |}.

Definition addRunway : Eff unit :=
  _ <- viewer_entities_add runwayEntity ;; skip.

(** [searchTerm && !text.toLowerCase().includes(searchTerm.toLowerCase())]:
    the test under which a waypoint or obstacle is dropped. *)
Definition searchRejects (searchTerm text : string) : bool :=
  Js.truthyString searchTerm &&
  negb (Js.includes (Js.toLowerCase text) (Js.toLowerCase searchTerm)).

(** [wp.sources.some((src) => waypointSources[src])] *)
Definition hasActiveSource (waypointSources : gmap string bool) (wp : Waypoint) : bool :=
  existsb (fun src => Js.truthyAt waypointSources src) (wp_sources wp).

(** The options object of the waypoint callback. *)
Definition waypointEntity (name : string) (wp : Waypoint) : Entity :=
  let altitude := Js.orNumber (wp_altitude wp) 100 in
  {| name := [Lit name];
     position := Some (fromDegrees (wp_lon wp) (wp_lat wp) altitude);
     point := Some
       {| pt_pixelSize := 8;
          pt_color := COLORS.waypoint;
          pt_outlineColor := BLACK;
          pt_outlineWidth := 1 |};
     label := Some
       {| lbl_text := [Lit name];
          lbl_font := "12px sans-serif";
          lbl_fillColor := WHITE;
          lbl_outlineColor := BLACK;
          lbl_outlineWidth := 2;
          lbl_style := FILL_AND_OUTLINE;
          lbl_verticalOrigin := BOTTOM;
          lbl_pixelOffset := mkCartesian2 0 (-12);
          lbl_distanceDisplayCondition := mkDistanceDisplayCondition 0 50000 |};
     cylinder := None; polygon := None; polyline := None;
     description :=
       [Lit "
            <h3>"; Lit name; Lit "</h3>
            <p><strong>위치:</strong> "; Fixed 6 (wp_lat wp); Lit ", "; Fixed 6 (wp_lon wp); Lit "</p>
            <p><strong>고도:</strong> "; Num altitude; Lit "m</p>
            <p><strong>출처:</strong> "; Lit (String.concat ", " (wp_sources wp)); Lit "</p>
          "] |}.

(** The callback of [Object.entries(data.waypoints).forEach]. *)
Definition addWaypoint (st : AppState) (entry : string * Waypoint) : Eff unit :=
  let (name, wp) := entry in
  if searchRejects (searchTerm st) name then skip else
  if negb (hasActiveSource (waypointSources st) wp) then skip else
  entity <- viewer_entities_add (waypointEntity name wp) ;;
  push_waypoints entity.

(** [OBSTACLE_COLORS[obs.type] || COLORS.obstacle_etc]; a colour object is
    truthy. *)
Definition obstacleColor (type : string) : Color :=
  match OBSTACLE_COLORS !! type with
  | Some c => c
  | None => COLORS.obstacle_etc
  end.

(** The options object of the obstacle callback. *)
Definition obstacleEntity (obs : Obstacle) : Entity :=
  let color := obstacleColor (obs_type obs) in
  {| name := [Lit "장애물 #"; Lit (obs_id obs)];
     position := Some (fromDegrees (obs_lon obs) (obs_lat obs) (obs_elevation obs / 2)%Q);
     point := None;
     label := Some
       {| lbl_text := [Lit "#"; Lit (obs_id obs)];
          lbl_font := "10px sans-serif";
          lbl_fillColor := WHITE;
          lbl_outlineColor := BLACK;
          lbl_outlineWidth := 1;
          lbl_style := FILL_AND_OUTLINE;
          lbl_verticalOrigin := BOTTOM;
          lbl_pixelOffset := mkCartesian2 0 (-10);
          lbl_distanceDisplayCondition := mkDistanceDisplayCondition 0 20000 |};
     cylinder := Some
       {| cyl_length := obs_elevation obs;
          cyl_topRadius := 20;
          cyl_bottomRadius := 30;
          cyl_material := withAlpha color 0.8;
          cyl_outline := true;
          cyl_outlineColor := color |};
     polygon := None; polyline := None;
     description :=
       [Lit "
            <h3>장애물 #"; Lit (obs_id obs); Lit "</h3>
            <p><strong>유형:</strong> "; Lit (obs_type obs); Lit "</p>
            <p><strong>위치:</strong> "; Fixed 6 (obs_lat obs); Lit ", "; Fixed 6 (obs_lon obs); Lit "</p>
            <p><strong>표고:</strong> "; Num (obs_elevation obs); Lit "m</p>
          "] |}.

(** The callback of [data.obstacles.forEach]. *)
Definition addObstacle (st : AppState) (obs : Obstacle) : Eff unit :=
  if negb (Js.truthyAt (obstacleTypes st) (obs_type obs)) then skip else
  if searchRejects (searchTerm st) (obs_id obs) then skip else
  entity <- viewer_entities_add (obstacleEntity obs) ;;
  push_obstacles entity.

(** The options object of the airspace callback, [ring] being
    [as.coordinates[0]]. *)
Definition airspaceEntity (zone : Airspace) (ring : list Coord) : Entity :=
  let positions :=
    map (fun coord : Coord =>
           fromDegrees coord.1 coord.2 (Js.orNumber (as_top_alt zone) 3000)) ring in
  {| name := [Lit (Js.orString (as_name zone) "Airspace")];
     position := None; point := None; label := None; cylinder := None;
     polygon := Some
       {| pg_hierarchy := mkPolygonHierarchy positions;
          pg_material := COLORS.airspace;
          pg_outline := true;
          pg_outlineColor := fromCssColorString "#E91E63";
          pg_extrudedHeight := Js.orNumber (as_top_alt zone) 3000;
          pg_height := Js.orNumber (as_base_alt zone) 0 |};
     polyline := None;
     description :=
       [Lit "
            <h3>"; Lit (Js.orString (as_name zone) "Airspace"); Lit "</h3>
            <p><strong>하한:</strong> "; Num (Js.orNumber (as_base_alt zone) 0); Lit "m</p>
            <p><strong>상한:</strong> "; Num (Js.orNumber (as_top_alt zone) 0); Lit "m</p>
          "] |}.

(** The callback of [data.airspace.forEach]. An array is truthy, empty or
    not, so the guard [!as.coordinates || !as.coordinates[0]] asks for the
    array and for its first element. *)
Definition addAirspace (zone : Airspace) : Eff unit :=
  match as_coordinates zone with
  | None => skip
  | Some coordinates =>
      match coordinates !! 0%nat with
      | None => skip
      | Some ring =>
          entity <- viewer_entities_add (airspaceEntity zone ring) ;;
          push_airspace entity
      end
  end.

(** The positions of a route: [500 + (idx * 50)] at index [idx]. *)
Definition routePositions (coordinates : list Coord) : list Cartesian3 :=
  imap (fun idx (coord : Coord) =>
          let altitude := inject_Z (500 + Js.ofIndex idx * 50) in
          fromDegrees coord.1 coord.2 altitude) coordinates.

(** The options object of the route polyline of a procedure. *)
Definition routeEntity (procType : ProcType) (proc : Procedure)
    (coordinates : list Coord) : Entity :=
  let color := colorOf procType in
  {| name := [Lit (proc_name proc)];
     position := None; point := None; label := None; cylinder := None;
     polygon := None;
     polyline := Some
       {| pl_positions := routePositions coordinates;
          pl_width := 4;
          pl_material := PolylineGlowMaterialProperty 0.3 color;
          pl_clampToGround := None |};
     description :=
       [Lit "
              <h3>"; Lit (proc_name proc); Lit "</h3>
              <p><strong>유형:</strong> "; Lit (procTypeName procType); Lit "</p>
              <p><strong>테이블:</strong> "; Lit (proc_table proc); Lit "</p>
            "] |}.

(** [leg.start_alt || leg.end_alt || 1000] *)
Definition legAltitude (leg : Leg) : Q :=
  Js.orNumber (Js.orOption (leg_start_alt leg) (leg_end_alt leg)) 1000.

(** [leg.seq || idx + 1] *)
Definition legNumber (leg : Leg) (idx : nat) : Q :=
  Js.orNumber (leg_seq leg) (inject_Z (Js.ofIndex idx + 1)).

(** [${alt || 'N/A'}] *)
Definition altOrNA (alt : option Q) : Frag :=
  match alt with
  | Some q => if Js.truthyNumber q then Num q else Lit "N/A"
  | None => Lit "N/A"
  end.

Definition legPositions (leg : Leg) (coordinates : list Coord) : list Cartesian3 :=
  map (fun coord : Coord =>
         let altitude := legAltitude leg in
         fromDegrees coord.1 coord.2 altitude) coordinates.

(** The options object of the polyline of a leg. *)
Definition legEntity (procType : ProcType) (proc : Procedure) (leg : Leg)
    (idx : nat) (coordinates : list Coord) : Entity :=
  let color := colorOf procType in
  {| name := [Lit (proc_name proc); Lit " - Leg "; Num (legNumber leg idx)];
     position := None; point := None; label := None; cylinder := None;
     polygon := None;
     polyline := Some
       {| pl_positions := legPositions leg coordinates;
          pl_width := 3;
          pl_material := ColorMaterial color;
          pl_clampToGround := None |};
     description :=
       [Lit "
                <h3>"; Lit (proc_name proc); Lit " - Leg "; Num (legNumber leg idx); Lit "</h3>
                <p><strong>시작 고도:</strong> "; altOrNA (leg_start_alt leg); Lit "m</p>
                <p><strong>종료 고도:</strong> "; altOrNA (leg_end_alt leg); Lit "m</p>
              "] |}.

(** [if (proc.coordinates && proc.coordinates.length >= 2) { ... }] *)
Definition addRoute (procType : ProcType) (proc : Procedure) : Eff unit :=
  match proc_coordinates proc with
  | Some coordinates =>
      if (2 <=? length coordinates)%nat then
        entity <- viewer_entities_add (routeEntity procType proc coordinates) ;;
        push_procedures entity
      else skip
  | None => skip
  end.

(** The callback of [proc.legs.forEach]. *)
Definition addLeg (procType : ProcType) (proc : Procedure) (leg : Leg) (idx : nat) : Eff unit :=
  match leg_coordinates leg with
  | None => skip
  | Some coordinates =>
      if (length coordinates <? 2)%nat then skip else
      entity <- viewer_entities_add (legEntity procType proc leg idx coordinates) ;;
      push_procedures entity
  end.

(** [if (proc.legs) { proc.legs.forEach(...) }] *)
Definition addLegs (procType : ProcType) (proc : Procedure) : Eff unit :=
  match proc_legs proc with
  | Some legs => forEachIdx legs (addLeg procType proc)
  | None => skip
  end.

(** The callback of [data.procedures[procType].forEach]. *)
Definition addProcedure (procType : ProcType) (proc : Procedure) : Eff unit :=
  addRoute procType proc ;;
  addLegs procType proc.

(** The callback of [['SID', 'STAR', 'APPROACH'].forEach]. *)
Definition addProcedures (st : AppState) (d : Dataset) (procType : ProcType) : Eff unit :=
  if negb (layerOf procType (layers st)) then skip else
  match proceduresOf procType (procedures d) with
  | None => skip
  | Some procs => forEach procs (addProcedure procType)
  end.

(** ** The effect *)

(** The body of the effect once a viewer and the data are there. *)
Definition renderEntities (st : AppState) (d : Dataset) : Eff unit :=
  viewer_entities_removeAll ;;
  entitiesRef_reset ;;
  addRunway ;;
  (if l_waypoints (layers st)
   then forEach (waypoints d) (addWaypoint st)
   else skip) ;;
  (if l_obstacles (layers st)
   then forEach (obstacles d) (addObstacle st)
   else skip) ;;
  (if l_airspace (layers st)
   then match airspace d with
        | Some zones => forEach zones addAirspace
        | None => skip
        end
   else skip) ;;
  forEach [SID; STAR; APPROACH] (addProcedures st d).

(** [useEffect(() => { if (!viewerRef.current || !data) return; ... },
    [data, layers, waypointSources, obstacleTypes, searchTerm])] *)
Definition renderEffect (st : AppState) (r : Refs) : Refs :=
  match viewerRef r, data st with
  | Some entities, Some d =>
      let s := exec (renderEntities st d)
                 {| viewer_entities := entities;
                    entitiesRef_current := entitiesRef r |} in
      {| viewerRef := Some (viewer_entities s);
         entitiesRef := entitiesRef_current s |}
  | _, _ => r
  end.

(** What the viewer shows: its entities, none without a viewer. *)
Definition shown (r : Refs) : list Entity :=
  match viewerRef r with
  | Some entities => entities
  | None => []
  end.

(** [setSearchTerm] *)
Definition setSearchTerm (term : string) (st : AppState) : AppState :=
  {| data := data st; layers := layers st;
     waypointSources := waypointSources st;
     obstacleTypes := obstacleTypes st;
     searchTerm := term |}.

(** ** What each callback appends

    Every callback of the effect either returns early or adds one entity to
    the viewer and pushes it on one list of [entitiesRef.current]. The
    functions below give, for each callback, the entities it appends; the
    lemmas after them show that running the callback does exactly that. *)

Definition waypointOut (st : AppState) (entry : string * Waypoint) : list Entity :=
  if searchRejects (searchTerm st) entry.1 then []
  else if hasActiveSource (waypointSources st) entry.2
       then [waypointEntity entry.1 entry.2] else [].

Definition obstacleOut (st : AppState) (obs : Obstacle) : list Entity :=
  if Js.truthyAt (obstacleTypes st) (obs_type obs)
  then (if searchRejects (searchTerm st) (obs_id obs) then [] else [obstacleEntity obs])
  else [].

Definition airspaceOut (zone : Airspace) : list Entity :=
  match as_coordinates zone with
  | Some (ring :: _) => [airspaceEntity zone ring]
  | _ => []
  end.

Definition routeOut (procType : ProcType) (proc : Procedure) : list Entity :=
  match proc_coordinates proc with
  | Some coordinates =>
      if (2 <=? length coordinates)%nat
      then [routeEntity procType proc coordinates] else []
  | None => []
  end.

Definition legOut (procType : ProcType) (proc : Procedure) (leg : Leg) (idx : nat)
    : list Entity :=
  match leg_coordinates leg with
  | Some coordinates =>
      if (length coordinates <? 2)%nat
      then [] else [legEntity procType proc leg idx coordinates]
  | None => []
  end.

Fixpoint legsOutFrom (procType : ProcType) (proc : Procedure) (i : nat) (legs : list Leg)
    : list Entity :=
  match legs with
  | [] => []
  | leg :: r => legOut procType proc leg i ++ legsOutFrom procType proc (S i) r
  end.

Definition legsOut (procType : ProcType) (proc : Procedure) : list Entity :=
  match proc_legs proc with
  | Some legs => legsOutFrom procType proc 0 legs
  | None => []
  end.

Definition procedureOut (procType : ProcType) (proc : Procedure) : list Entity :=
  routeOut procType proc ++ legsOut procType proc.

Definition proceduresOut (st : AppState) (d : Dataset) (procType : ProcType) : list Entity :=
  if layerOf procType (layers st)
  then match proceduresOf procType (procedures d) with
       | Some procs => flat_map (procedureOut procType) procs
       | None => []
       end
  else [].

(** The four lists of [entitiesRef.current] once the effect has run. *)
Definition projectWaypoints (st : AppState) (d : Dataset) : list Entity :=
  if l_waypoints (layers st) then flat_map (waypointOut st) (waypoints d) else [].

Definition projectObstacles (st : AppState) (d : Dataset) : list Entity :=
  if l_obstacles (layers st) then flat_map (obstacleOut st) (obstacles d) else [].

Definition projectAirspace (st : AppState) (d : Dataset) : list Entity :=
  if l_airspace (layers st)
  then match airspace d with
       | Some zones => flat_map airspaceOut zones
       | None => []
       end
  else [].

Definition projectProcedures (st : AppState) (d : Dataset) : list Entity :=
  flat_map (proceduresOut st d) [SID; STAR; APPROACH].

(** The entities of the viewer once the effect has run: the runway first,
    then the four layers in the order the effect walks them. *)
Definition project (st : AppState) (d : Dataset) : list Entity :=
  runwayEntity ::
    projectWaypoints st d ++ projectObstacles st d ++
    projectAirspace st d ++ projectProcedures st d.

Definition projectRef (st : AppState) (d : Dataset) : EntitiesRef :=
  {| ref_waypoints := projectWaypoints st d;
     ref_obstacles := projectObstacles st d;
     ref_airspace := projectAirspace st d;
     ref_procedures := projectProcedures st d |}.

(** Appending [es] to the viewer and [delta], list by list, to the ref. *)
Definition appendRef (r delta : EntitiesRef) : EntitiesRef :=
  {| ref_waypoints := ref_waypoints r ++ ref_waypoints delta;
     ref_obstacles := ref_obstacles r ++ ref_obstacles delta;
     ref_airspace := ref_airspace r ++ ref_airspace delta;
     ref_procedures := ref_procedures r ++ ref_procedures delta |}.

Definition emit (es : list Entity) (delta : EntitiesRef) (s : Scene) : Scene :=
  {| viewer_entities := viewer_entities s ++ es;
     entitiesRef_current := appendRef (entitiesRef_current s) delta |}.

Definition inWaypoints (es : list Entity) : EntitiesRef :=
  {| ref_waypoints := es; ref_obstacles := []; ref_airspace := []; ref_procedures := [] |}.
Definition inObstacles (es : list Entity) : EntitiesRef :=
  {| ref_waypoints := []; ref_obstacles := es; ref_airspace := []; ref_procedures := [] |}.
Definition inAirspace (es : list Entity) : EntitiesRef :=
  {| ref_waypoints := []; ref_obstacles := []; ref_airspace := es; ref_procedures := [] |}.
Definition inProcedures (es : list Entity) : EntitiesRef :=
  {| ref_waypoints := []; ref_obstacles := []; ref_airspace := []; ref_procedures := es |}.

(** A way of filing entities under one list of the ref. *)
Class Filing (inj : list Entity -> EntitiesRef) : Prop := {
  filing_nil : forall r, appendRef r (inj []) = r;
  filing_app : forall r es1 es2,
    appendRef (appendRef r (inj es1)) (inj es2) = appendRef r (inj (es1 ++ es2));
}.

(** ** Notions used to state the properties *)

(** [text] contains [term] up to the case of letters: some substring [mid]
    of [text] lower-cases to the same string as [term]. *)
Definition containsIgnoringCase (text term : string) : Prop :=
  exists pre mid post,
    text = pre +:+ mid +:+ post /\ Js.toLowerCase mid = Js.toLowerCase term.

(** The graphics an entity carries. *)
Inductive Kind : Type := KPoint | KCylinder | KPolygon | KPolyline | KBare.

Definition kindOf (e : Entity) : Kind :=
  match point e, cylinder e, polygon e, polyline e with
  | Some _, _, _, _ => KPoint
  | None, Some _, _, _ => KCylinder
  | None, None, Some _, _ => KPolygon
  | None, None, None, Some _ => KPolyline
  | None, None, None, None => KBare
  end.




(** An optional number that is missing or zero, hence falsy. *)
Definition absentOrZero (x : option Q) : Prop :=
  x = None \/ exists q, x = Some q /\ (q == 0)%Q.


(** The vertices over [coordinates] at the one altitude [alt]. *)
Definition polylineAt (alt : Q) (coordinates : list Coord) : list Cartesian3 :=
  map (fun coord : Coord => fromDegrees coord.1 coord.2 alt) coordinates.



(** ** Sample inputs *)

Module Sample.

Definition noRef : EntitiesRef :=
  {| ref_waypoints := []; ref_obstacles := []; ref_airspace := []; ref_procedures := [] |}.

(** A viewer that shows nothing yet. *)
Definition freshRefs : Refs := {| viewerRef := Some []; entitiesRef := noRef |}.

(** A viewer that still shows the runway of an earlier pass. *)
Definition usedRefs : Refs :=
  {| viewerRef := Some [runwayEntity; runwayEntity]; entitiesRef := noRef |}.

Definition noProcedures : Procedures :=
  {| procs_SID := Some []; procs_STAR := Some []; procs_APPROACH := Some [] |}.

(** The waypoint of the first example of the specification, alone. *)
Definition alphaData (wp : Waypoint) : Dataset :=
  {| waypoints := [("ALPHA", wp)]; obstacles := []; airspace := None;
     procedures := noProcedures |}.

(** The state right after loading [d], with the given source toggles and
    search term. *)
Definition loaded (d : Dataset) (sources : gmap string bool) (term : string) : AppState :=
  {| data := Some d; layers := initialLayers; waypointSources := sources;
     obstacleTypes := initialObstacleTypes; searchTerm := term |}.

Definition alpha : Waypoint :=
  {| wp_lat := 35.0; wp_lon := 129.0; wp_altitude := None; wp_sources := ["NAV1"] |}.

Definition ground : Waypoint :=
  {| wp_lat := 35.5; wp_lon := 129.5; wp_altitude := Some 0%Q; wp_sources := ["NAV2"] |}.

Definition waypointData : Dataset :=
  {| waypoints := [("ALPHA", alpha); ("BRAVO", ground)]; obstacles := [];
     airspace := None; procedures := noProcedures |}.

Definition nav1 : gmap string bool := {[ "NAV1" := true ]}.

(** An obstacle whose type is none of the six of [obstacleTypes]. *)
(** The obstacle of the third example of the specification. *)
Definition tower42 : Obstacle :=
  {| obs_id := "42"; obs_type := "Tower"; obs_lat := 1; obs_lon := 1;
     obs_elevation := 80 |}.

Definition crane : Obstacle :=
  {| obs_id := "42"; obs_type := "Crane"; obs_lat := 1; obs_lon := 1;
     obs_elevation := 80 |}.

Definition craneData : Dataset :=
  {| waypoints := []; obstacles := [crane]; airspace := None;
     procedures := noProcedures |}.

Definition windmill : Obstacle :=
  {| obs_id := "W-7"; obs_type := "Windmill"; obs_lat := 35.6; obs_lon := 129.4;
     obs_elevation := 120 |}.

Definition tower : Obstacle :=
  {| obs_id := "T-1"; obs_type := "Tower"; obs_lat := 35.6; obs_lon := 129.3;
     obs_elevation := 60 |}.

Definition windmillData : Dataset :=
  {| waypoints := []; obstacles := [tower; windmill]; airspace := None;
     procedures := noProcedures |}.


(** A zone whose coordinates array is empty. *)
Definition ringlessZone : Airspace :=
  {| as_name := None; as_base_alt := None; as_top_alt := None;
     as_coordinates := Some [] |}.

Definition triangle : list Coord :=
  [(129.30, 35.50); (129.40, 35.50); (129.35, 35.60)]%Q.

Definition triangleZone : Airspace :=
  {| as_name := Some "TMA"; as_base_alt := Some 300%Q; as_top_alt := None;
     as_coordinates := Some [triangle] |}.


Definition twoPoints : list Coord := [(129.35, 35.59); (129.36, 35.70)]%Q.

(** A leg that starts on the ground. *)
Definition groundLeg : Leg :=
  {| leg_seq := Some 1%Q; leg_start_alt := Some 0%Q; leg_end_alt := Some 2000%Q;
     leg_coordinates := Some twoPoints |}.

Definition shortLeg : Leg :=
  {| leg_seq := None; leg_start_alt := Some 900%Q; leg_end_alt := None;
     leg_coordinates := Some [(129.35, 35.59)%Q] |}.

Definition climbLeg : Leg :=
  {| leg_seq := None; leg_start_alt := Some 900%Q; leg_end_alt := Some 1500%Q;
     leg_coordinates := Some twoPoints |}.

Definition departure : Procedure :=
  {| proc_name := "RWY36 DEP"; proc_table := "SID_1";
     proc_coordinates := Some triangle; proc_legs := Some [climbLeg] |}.

Definition approach : Procedure :=
  {| proc_name := "ILS RWY36"; proc_table := "APP_1";
     proc_coordinates := Some triangle;
     proc_legs := Some [shortLeg; groundLeg] |}.

(** A procedure with a single route coordinate and no legs. *)
Definition circling : Procedure :=
  {| proc_name := "CIRCLING"; proc_table := "APP_2";
     proc_coordinates := Some [(129.35, 35.59)%Q]; proc_legs := None |}.

(** A departure under SID, whose layer starts switched off, and an
    approach under APPROACH, whose layer starts switched on. *)
Definition procedureData : Dataset :=
  {| waypoints := []; obstacles := []; airspace := None;
     procedures := {| procs_SID := Some [departure]; procs_STAR := None;
                      procs_APPROACH := Some [approach; circling] |} |}.

End Sample.

(** ** The rest of the component *)

(** The body of the inner loop of the loader,
    [if (!sources[src]) sources[src] = true]. *)
Definition addSource (sources : gmap string bool) (src : string) : gmap string bool :=
  if negb (Js.truthyAt sources src) then <[src := true]> sources else sources.

(** The [sources] object the loader builds from the fetched document:
    [Object.values(json.waypoints).forEach((wp) => wp.sources.forEach(...))]
    over an object that starts empty. *)
Definition initWaypointSources (json : Dataset) : gmap string bool :=
  fold_left (fun sources (entry : string * Waypoint) =>
               fold_left addSource (wp_sources entry.2) sources)
            (waypoints json) ∅.


(** [toggleLayer]: [{ ...prev, [layer]: !prev[layer] }], read on the six
    fields the effect uses. *)
Definition toggleLayer (layer : string) (prev : Layers) : Layers :=
  let flip (key : string) (b : bool) : bool :=
    if String.eqb layer key then negb b else b in
  {| l_waypoints := flip "waypoints" (l_waypoints prev);
     l_obstacles := flip "obstacles" (l_obstacles prev);
     l_airspace := flip "airspace" (l_airspace prev);
     l_SID := flip "SID" (l_SID prev);
     l_STAR := flip "STAR" (l_STAR prev);
     l_APPROACH := flip "APPROACH" (l_APPROACH prev) |}.

Definition setLayers (l : Layers) (st : AppState) : AppState :=
  {| data := data st; layers := l; waypointSources := waypointSources st;
     obstacleTypes := obstacleTypes st; searchTerm := searchTerm st |}.

Definition setObstacleTypes (types : gmap string bool) (st : AppState) : AppState :=
  {| data := data st; layers := layers st; waypointSources := waypointSources st;
     obstacleTypes := types; searchTerm := searchTerm st |}.



Definition statsProcedures (data : option Dataset) : option nat :=
  match data with
  | Some d =>
      match procs_SID (procedures d), procs_STAR (procedures d),
            procs_APPROACH (procedures d) with
      | Some sid, Some star, Some approach =>
          Some (length sid + length star + length approach)%nat
      | _, _, _ => None
      end
  | None => Some 0%nat
  end.

(** The component between two updates: its state, the [loading] flag and
    its two refs. *)
Record Component : Type := {
  state : AppState;
  loading : bool;
  refs : Refs;
}.

(** The initial values of the [useState] calls. *)
Definition initialState : AppState :=
  {| data := None; layers := initialLayers; waypointSources := ∅;
     obstacleTypes := initialObstacleTypes; searchTerm := "" |}.

(** The initial values of the two refs, [useRef(null)] and [useRef({})]. *)
Definition initialRefs : Refs :=
  {| viewerRef := None;
     entitiesRef := {| ref_waypoints := []; ref_obstacles := [];
                       ref_airspace := []; ref_procedures := [] |} |}.

(** Whether the component function renders the container [div]: while
    [loading] it returns the loading notice alone. *)
Definition containerRendered (loading : bool) : bool := negb loading.

(** The Cesium effect, [if (!cesiumContainer.current || viewerRef.current)
    return;] and then a new viewer, which holds no entity. *)
Definition initCesium (container : bool) (r : Refs) : Refs :=
  match viewerRef r with
  | Some _ => r
  | None =>
      if container
      then {| viewerRef := Some []; entitiesRef := entitiesRef r |}
      else r
  end.

(** What can happen to the mounted component: the fetch settles, or the user
    clicks a layer toggle or an obstacle-type toggle or edits the search
    box. *)
Inductive Event : Type :=
| FetchOk (json : Dataset)
| FetchFailed
| ToggleLayer (layer : string)
| ToggleObstacleType (type : string)
| SetSearchTerm (term : string).

(** The state updates of an event. *)
Definition update (ev : Event) (st : AppState) : AppState :=
  match ev with
  | FetchOk json =>
      {| data := Some json; layers := layers st;
         waypointSources := initWaypointSources json;
         obstacleTypes := obstacleTypes st; searchTerm := searchTerm st |}
  | FetchFailed => st
  | ToggleLayer layer => setLayers (toggleLayer layer (layers st)) st
  | ToggleObstacleType type =>
      setObstacleTypes (toggleObstacleType type (obstacleTypes st)) st
  | SetSearchTerm term => setSearchTerm term st
  end.

Definition updateLoading (ev : Event) (loading : bool) : bool :=
  match ev with
  | FetchOk _ | FetchFailed => false
  | _ => loading
  end.

(** Mounting: the first render, with the initial state, followed by the
    effects. The Cesium effect has no dependencies and runs this once; the
    render effect runs after it. *)
Definition mount : Component :=
  let r := initCesium (containerRendered true) initialRefs in
  {| state := initialState; loading := true;
     refs := renderEffect initialState r |}.

(** An event: the state updates, the render, and the render effect, whose
    dependencies are the five parts of the state. The effect rebuilds the
    viewer from the state alone, so running it after an update that leaves
    the state as it was changes nothing. *)
Definition step (c : Component) (ev : Event) : Component :=
  let st := update ev (state c) in
  {| state := st; loading := updateLoading ev (loading c);
     refs := renderEffect st (refs c) |}.

Definition run (evs : list Event) (c : Component) : Component :=
  fold_left step evs c.



(** The entity is the route polyline of a procedure: a polyline drawn with
    the glow material. *)
Definition isRoute (e : Entity) : bool :=
  match polyline e with
  | Some line =>
      match pl_material line with
      | PolylineGlowMaterialProperty _ _ => true
      | ColorMaterial _ => false
      end
  | None => false
  end.



(** ** Substring search up to case *)

Section StringFacts.

Lemma append_nil (t : string) : EmptyString +:+ t = t.
Proof. reflexivity. Qed.

Lemma append_cons (c : ascii) (s t : string) :
  String c s +:+ t = String c (s +:+ t).
Proof. reflexivity. Qed.

Lemma prefix_split (sub s : string) :
  String.prefix sub s = true <-> exists post, s = sub +:+ post.
Proof.
  revert s. induction sub as [|c sub IH]; intros s.
  - split; [intros _; exists s; reflexivity | intros _; destruct s; reflexivity].
  - destruct s as [|c' s]; simpl.
    + split; [discriminate | intros [post H]; discriminate].
    + destruct (Ascii.ascii_dec c c') as [->|Hne].
      * rewrite IH. split; intros [post H]; exists post;
          rewrite append_cons in *; congruence.
      * split; [discriminate |].
        intros [post H]. rewrite append_cons in H. congruence.
Qed.

Lemma includes_split (s sub : string) :
  Js.includes s sub = true <-> exists pre post, s = pre +:+ sub +:+ post.
Proof.
  induction s as [|c s IH].
  - change (Js.includes EmptyString sub)
      with (String.prefix sub EmptyString || false).
    rewrite orb_false_r, prefix_split. split.
    + intros [post H]. exists EmptyString, post. exact H.
    + intros [pre [post H]]. destruct pre; [|discriminate].
      exists post. exact H.
  - change (Js.includes (String c s) sub)
      with (String.prefix sub (String c s) || Js.includes s sub).
    rewrite orb_true_iff, prefix_split, IH. split.
    + intros [[post H] | [pre [post H]]].
      * exists EmptyString, post. exact H.
      * exists (String c pre), post. rewrite append_cons. congruence.
    + intros [pre [post H]]. destruct pre as [|c' pre].
      * left. exists post. exact H.
      * right. exists pre, post. rewrite append_cons in H. congruence.
Qed.

Lemma toLowerCase_app (s t : string) :
  Js.toLowerCase (s +:+ t) = Js.toLowerCase s +:+ Js.toLowerCase t.
Proof.
  induction s as [|c s IH]; [reflexivity|].
  rewrite append_cons. simpl. rewrite append_cons. congruence.
Qed.

Lemma toLowerCase_unapp (s a b : string) :
  Js.toLowerCase s = a +:+ b ->
  exists s1 s2, s = s1 +:+ s2 /\ Js.toLowerCase s1 = a /\ Js.toLowerCase s2 = b.
Proof.
  revert s. induction a as [|c a IH]; intros s H.
  - exists EmptyString, s. auto.
  - rewrite append_cons in H.
    destruct s as [|c' s]; simpl in H; [discriminate|].
    injection H as Hc Hs. destruct (IH _ Hs) as (s1 & s2 & -> & H1 & H2).
    exists (String c' s1), s2. rewrite append_cons. simpl.
    repeat split; congruence.
Qed.

(** The search test of the code decides [containsIgnoringCase]. *)
Lemma includes_lower_spec (text term : string) :
  Js.includes (Js.toLowerCase text) (Js.toLowerCase term) = true
  <-> containsIgnoringCase text term.
Proof.
  rewrite includes_split. split.
  - intros (pre & post & H).
    apply toLowerCase_unapp in H as (s1 & s23 & -> & _ & H).
    apply toLowerCase_unapp in H as (s2 & s3 & -> & H2 & _).
    exists s1, s2, s3. auto.
  - intros (pre & mid & post & -> & H).
    exists (Js.toLowerCase pre), (Js.toLowerCase post).
    rewrite !toLowerCase_app. congruence.
Qed.

Lemma containsIgnoringCase_empty (text : string) :
  containsIgnoringCase text EmptyString.
Proof. exists EmptyString, EmptyString, text. auto. Qed.

(** A text survives the search filter exactly when it contains the term up
    to case; the empty term lets everything through. *)
Lemma searchRejects_spec (term text : string) :
  searchRejects term text = false <-> containsIgnoringCase text term.
Proof.
  unfold searchRejects. destruct term as [|c term]; simpl Js.truthyString.
  - split; [intros _; apply containsIgnoringCase_empty | reflexivity].
  - rewrite andb_true_l, negb_false_iff. apply includes_lower_spec.
Qed.

End StringFacts.

(** ** Running the callbacks *)

Ltac filing :=
  split; [ intros [? ? ? ?] | intros [? ? ? ?] ? ? ];
  unfold appendRef; simpl; rewrite ?app_nil_r, <- ?app_assoc; reflexivity.

#[global] Instance inWaypoints_filing : Filing inWaypoints.
Proof. filing. Qed.
#[global] Instance inObstacles_filing : Filing inObstacles.
Proof. filing. Qed.
#[global] Instance inAirspace_filing : Filing inAirspace.
Proof. filing. Qed.
#[global] Instance inProcedures_filing : Filing inProcedures.
Proof. filing. Qed.

Section Emission.

Lemma exec_bind {A B : Type} (m : Eff A) (k : A -> Eff B) (s : Scene) :
  exec (bind m k) s = exec (k (m s).1) (m s).2.
Proof. unfold exec, bind. destruct (m s); reflexivity. Qed.

Lemma exec_seq {B : Type} (m : Eff unit) (k : Eff B) (s : Scene) :
  exec (m ;; k) s = exec k (exec m s).
Proof. apply exec_bind. Qed.

Lemma exec_skip (s : Scene) : exec skip s = s.
Proof. reflexivity. Qed.

Context (inj : list Entity -> EntitiesRef) `{!Filing inj}.

Lemma emit_nil (s : Scene) : emit [] (inj []) s = s.
Proof.
  destruct s as [es r]. unfold emit; simpl.
  rewrite app_nil_r, filing_nil. reflexivity.
Qed.

Lemma emit_emit (es1 es2 : list Entity) (s : Scene) :
  emit es2 (inj es2) (emit es1 (inj es1) s) = emit (es1 ++ es2) (inj (es1 ++ es2)) s.
Proof.
  unfold emit; simpl. rewrite filing_app, app_assoc. reflexivity.
Qed.

(** A loop whose callback appends [out x] appends their concatenation. *)
Lemma exec_forEach {A : Type} (f : A -> Eff unit) (out : A -> list Entity) :
  (forall x s, exec (f x) s = emit (out x) (inj (out x)) s) ->
  forall xs s,
    exec (forEach xs f) s = emit (flat_map out xs) (inj (flat_map out xs)) s.
Proof.
  intros Hf xs. induction xs as [|x xs IH]; intros s; simpl.
  - rewrite exec_skip, emit_nil. reflexivity.
  - rewrite exec_seq, Hf, IH, emit_emit. reflexivity.
Qed.

End Emission.

Section Callbacks.

Variable st : AppState.

Lemma exec_add_push (e : Entity) (push : Entity -> Eff unit)
    (inj : list Entity -> EntitiesRef) (s : Scene) :
  (forall s', exec (push e) s' =
              {| viewer_entities := viewer_entities s';
                 entitiesRef_current := appendRef (entitiesRef_current s') (inj [e]) |}) ->
  exec (entity <- viewer_entities_add e ;; push entity) s = emit [e] (inj [e]) s.
Proof. intros Hpush. rewrite exec_bind. simpl. rewrite Hpush. reflexivity. Qed.

Ltac push_step :=
  intros [es [? ? ? ?]]; unfold exec, appendRef; simpl;
  rewrite ?app_nil_r; reflexivity.

Lemma exec_addWaypoint (entry : string * Waypoint) (s : Scene) :
  exec (addWaypoint st entry) s
  = emit (waypointOut st entry) (inWaypoints (waypointOut st entry)) s.
Proof.
  destruct entry as [name wp]. unfold addWaypoint, waypointOut; simpl.
  destruct (searchRejects _ _); [symmetry; apply (emit_nil inWaypoints)|].
  destruct (hasActiveSource _ _); simpl;
    [|symmetry; apply (emit_nil inWaypoints)].
  apply exec_add_push. push_step.
Qed.

Lemma exec_addObstacle (obs : Obstacle) (s : Scene) :
  exec (addObstacle st obs) s
  = emit (obstacleOut st obs) (inObstacles (obstacleOut st obs)) s.
Proof.
  unfold addObstacle, obstacleOut.
  destruct (Js.truthyAt _ _); simpl; [|symmetry; apply (emit_nil inObstacles)].
  destruct (searchRejects _ _); [symmetry; apply (emit_nil inObstacles)|].
  apply exec_add_push. push_step.
Qed.

Lemma exec_addAirspace (zone : Airspace) (s : Scene) :
  exec (addAirspace zone) s
  = emit (airspaceOut zone) (inAirspace (airspaceOut zone)) s.
Proof.
  unfold addAirspace, airspaceOut.
  destruct (as_coordinates zone) as [[|ring rings]|]; simpl;
    try (symmetry; apply (emit_nil inAirspace)).
  apply exec_add_push. push_step.
Qed.

Lemma exec_addRoute (procType : ProcType) (proc : Procedure) (s : Scene) :
  exec (addRoute procType proc) s
  = emit (routeOut procType proc) (inProcedures (routeOut procType proc)) s.
Proof.
  unfold addRoute, routeOut.
  destruct (proc_coordinates proc) as [cs|];
    [|symmetry; apply (emit_nil inProcedures)].
  destruct (2 <=? length cs)%nat; [|symmetry; apply (emit_nil inProcedures)].
  apply exec_add_push. push_step.
Qed.

Lemma exec_addLeg (procType : ProcType) (proc : Procedure) (leg : Leg) (idx : nat)
    (s : Scene) :
  exec (addLeg procType proc leg idx) s
  = emit (legOut procType proc leg idx) (inProcedures (legOut procType proc leg idx)) s.
Proof.
  unfold addLeg, legOut.
  destruct (leg_coordinates leg) as [cs|];
    [|symmetry; apply (emit_nil inProcedures)].
  destruct (length cs <? 2)%nat; [symmetry; apply (emit_nil inProcedures)|].
  apply exec_add_push. push_step.
Qed.

Lemma exec_forEachFrom_legs (procType : ProcType) (proc : Procedure)
    (legs : list Leg) (i : nat) (s : Scene) :
  exec (forEachFrom i legs (addLeg procType proc)) s
  = emit (legsOutFrom procType proc i legs)
         (inProcedures (legsOutFrom procType proc i legs)) s.
Proof.
  revert i s. induction legs as [|leg legs IH]; intros i s; simpl.
  - rewrite exec_skip. symmetry. apply (emit_nil inProcedures).
  - rewrite exec_seq, exec_addLeg, IH. apply (emit_emit inProcedures).
Qed.

Lemma exec_addLegs (procType : ProcType) (proc : Procedure) (s : Scene) :
  exec (addLegs procType proc) s
  = emit (legsOut procType proc) (inProcedures (legsOut procType proc)) s.
Proof.
  unfold addLegs, legsOut, forEachIdx. destruct (proc_legs proc) as [legs|].
  - apply exec_forEachFrom_legs.
  - symmetry. apply (emit_nil inProcedures).
Qed.

Lemma exec_addProcedure (procType : ProcType) (proc : Procedure) (s : Scene) :
  exec (addProcedure procType proc) s
  = emit (procedureOut procType proc) (inProcedures (procedureOut procType proc)) s.
Proof.
  unfold addProcedure, procedureOut.
  rewrite exec_seq, exec_addRoute, exec_addLegs. apply (emit_emit inProcedures).
Qed.

Lemma exec_addProcedures (d : Dataset) (procType : ProcType) (s : Scene) :
  exec (addProcedures st d procType) s
  = emit (proceduresOut st d procType) (inProcedures (proceduresOut st d procType)) s.
Proof.
  unfold addProcedures, proceduresOut.
  destruct (layerOf procType (layers st)); simpl;
    [|symmetry; apply (emit_nil inProcedures)].
  destruct (proceduresOf procType (procedures d)) as [procs|];
    [|symmetry; apply (emit_nil inProcedures)].
  apply (exec_forEach inProcedures). apply exec_addProcedure.
Qed.

(** The body of the effect leaves the projection in the viewer and its
    four layers in the ref, whatever was there before. *)
Lemma exec_renderEntities (d : Dataset) (s : Scene) :
  exec (renderEntities st d) s
  = {| viewer_entities := project st d; entitiesRef_current := projectRef st d |}.
Proof.
  unfold renderEntities.
  rewrite !exec_seq.
  rewrite (exec_forEach inProcedures _ _ (exec_addProcedures d)).
  fold (projectProcedures st d).
  assert (Hw : forall s',
    exec (if l_waypoints (layers st) then forEach (waypoints d) (addWaypoint st) else skip) s'
    = emit (projectWaypoints st d) (inWaypoints (projectWaypoints st d)) s').
  { intros s'. unfold projectWaypoints. destruct (l_waypoints (layers st)).
    - apply (exec_forEach inWaypoints), exec_addWaypoint.
    - symmetry. apply (emit_nil inWaypoints). }
  assert (Ho : forall s',
    exec (if l_obstacles (layers st) then forEach (obstacles d) (addObstacle st) else skip) s'
    = emit (projectObstacles st d) (inObstacles (projectObstacles st d)) s').
  { intros s'. unfold projectObstacles. destruct (l_obstacles (layers st)).
    - apply (exec_forEach inObstacles), exec_addObstacle.
    - symmetry. apply (emit_nil inObstacles). }
  assert (Ha : forall s',
    exec (if l_airspace (layers st)
          then match airspace d with
               | Some zones => forEach zones addAirspace
               | None => skip
               end
          else skip) s'
    = emit (projectAirspace st d) (inAirspace (projectAirspace st d)) s').
  { intros s'. unfold projectAirspace. destruct (l_airspace (layers st)).
    - destruct (airspace d) as [zones|].
      + apply (exec_forEach inAirspace), exec_addAirspace.
      + symmetry. apply (emit_nil inAirspace).
    - symmetry. apply (emit_nil inAirspace). }
  rewrite Ha, Ho, Hw.
  unfold emit, exec, appendRef, project, projectRef; simpl.
  rewrite ?app_nil_r. rewrite <- !app_assoc. reflexivity.
Qed.

(** With a viewer and the data in place, the effect replaces the viewer's
    entities by the projection. *)
Lemma renderEffect_project (d : Dataset) (r : Refs) (old : list Entity) :
  viewerRef r = Some old -> data st = Some d ->
  renderEffect st r
  = {| viewerRef := Some (project st d); entitiesRef := projectRef st d |}.
Proof.
  intros Hv Hd. unfold renderEffect. rewrite Hv, Hd, exec_renderEntities.
  reflexivity.
Qed.

(** Without a viewer or without data the effect returns at once. *)
Lemma renderEffect_idle (r : Refs) :
  viewerRef r = None \/ data st = None -> renderEffect st r = r.
Proof.
  intros [H|H]; unfold renderEffect; rewrite H; [reflexivity|].
  destruct (viewerRef r); reflexivity.
Qed.

End Callbacks.

(** ** Telling the layers apart *)

Section Layers.

Variables (st : AppState) (d : Dataset).

Lemma in_waypointOut (e : Entity) (entry : string * Waypoint) :
  In e (waypointOut st entry) <->
  e = waypointEntity entry.1 entry.2 /\
  searchRejects (searchTerm st) entry.1 = false /\
  hasActiveSource (waypointSources st) entry.2 = true.
Proof.
  unfold waypointOut.
  destruct (searchRejects _ _), (hasActiveSource _ _); simpl; intuition congruence.
Qed.

Lemma in_obstacleOut (e : Entity) (obs : Obstacle) :
  In e (obstacleOut st obs) <->
  e = obstacleEntity obs /\
  Js.truthyAt (obstacleTypes st) (obs_type obs) = true /\
  searchRejects (searchTerm st) (obs_id obs) = false.
Proof.
  unfold obstacleOut.
  destruct (Js.truthyAt _ _), (searchRejects _ _); simpl; intuition congruence.
Qed.

Lemma in_airspaceOut (e : Entity) (zone : Airspace) :
  In e (airspaceOut zone) <->
  exists ring rest,
    as_coordinates zone = Some (ring :: rest) /\ e = airspaceEntity zone ring.
Proof.
  unfold airspaceOut. destruct (as_coordinates zone) as [[|ring rest]|]; simpl.
  - split; [tauto | intros (? & ? & ? & _); discriminate].
  - split.
    + intros [<-|[]]. eauto.
    + intros (? & ? & [= <- <-] & ->). auto.
  - split; [tauto | intros (? & ? & ? & _); discriminate].
Qed.

Lemma in_routeOut (e : Entity) (procType : ProcType) (proc : Procedure) :
  In e (routeOut procType proc) <->
  exists cs, proc_coordinates proc = Some cs /\ (2 <= length cs)%nat /\
             e = routeEntity procType proc cs.
Proof.
  unfold routeOut. destruct (proc_coordinates proc) as [cs|].
  - destruct (Nat.leb_spec 2 (length cs)); simpl.
    + split.
      * intros [<-|[]]. eauto.
      * intros (? & [= <-] & _ & ->). auto.
    + split; [tauto | intros (? & [= <-] & ? & _); lia].
  - simpl. split; [tauto | intros (? & ? & _); discriminate].
Qed.

Lemma in_legOut (e : Entity) (procType : ProcType) (proc : Procedure)
    (leg : Leg) (idx : nat) :
  In e (legOut procType proc leg idx) <->
  exists cs, leg_coordinates leg = Some cs /\ (2 <= length cs)%nat /\
             e = legEntity procType proc leg idx cs.
Proof.
  unfold legOut. destruct (leg_coordinates leg) as [cs|].
  - destruct (Nat.ltb_spec (length cs) 2); simpl.
    + split; [tauto | intros (? & [= <-] & ? & _); lia].
    + split.
      * intros [<-|[]]. eauto.
      * intros (? & [= <-] & _ & ->). auto.
  - simpl. split; [tauto | intros (? & ? & _); discriminate].
Qed.

Lemma in_legsOutFrom (e : Entity) (procType : ProcType) (proc : Procedure)
    (legs : list Leg) (i : nat) :
  In e (legsOutFrom procType proc i legs) <->
  exists idx leg, legs !! idx = Some leg /\
                  In e (legOut procType proc leg (i + idx)).
Proof.
  revert i. induction legs as [|leg legs IH]; intros i; simpl.
  - split; [tauto | intros (idx & ? & H & _); destruct idx; discriminate].
  - rewrite in_app_iff, IH. split.
    + intros [H | (idx & leg' & Hl & H)].
      * exists 0%nat, leg. rewrite Nat.add_0_r. auto.
      * exists (S idx), leg'. rewrite Nat.add_succ_r. auto.
    + intros ([|idx] & leg' & Hl & H); simpl in Hl.
      * injection Hl as <-. rewrite Nat.add_0_r in H. auto.
      * right. exists idx, leg'. rewrite Nat.add_succ_r in H. auto.
Qed.

Lemma in_procedureOut (e : Entity) (procType : ProcType) (proc : Procedure) :
  In e (procedureOut procType proc) <->
  In e (routeOut procType proc) \/
  exists legs idx leg, proc_legs proc = Some legs /\ legs !! idx = Some leg /\
                       In e (legOut procType proc leg idx).
Proof.
  unfold procedureOut, legsOut. rewrite in_app_iff.
  destruct (proc_legs proc) as [legs|].
  - rewrite in_legsOutFrom. simpl. split.
    + intros [H | (idx & leg & Hl & H)]; [auto|]. right. eauto 6.
    + intros [H | (? & idx & leg & [= <-] & Hl & H)]; [auto|]. right. eauto.
  - simpl. split; [tauto|].
    intros [H | (? & ? & ? & ? & _)]; [auto | discriminate].
Qed.

Lemma in_proceduresOut (e : Entity) (procType : ProcType) :
  In e (proceduresOut st d procType) <->
  layerOf procType (layers st) = true /\
  exists procs proc, proceduresOf procType (procedures d) = Some procs /\
                     In proc procs /\ In e (procedureOut procType proc).
Proof.
  unfold proceduresOut. destruct (layerOf procType (layers st)).
  - destruct (proceduresOf procType (procedures d)) as [procs|].
    + rewrite in_flat_map. split.
      * intros (proc & ? & ?). eauto 6.
      * intros (_ & ? & proc & [= <-] & ? & ?). eauto.
    + simpl. split; [tauto | intros (_ & ? & ? & ? & _); discriminate].
  - simpl. split; [tauto | intros [? _]; discriminate].
Qed.

Lemma in_projectWaypoints (e : Entity) :
  In e (projectWaypoints st d) <->
  l_waypoints (layers st) = true /\
  exists entry, In entry (waypoints d) /\ In e (waypointOut st entry).
Proof.
  unfold projectWaypoints. destruct (l_waypoints (layers st)).
  - rewrite in_flat_map. tauto.
  - simpl. split; [tauto | intros [? _]; discriminate].
Qed.

Lemma in_projectObstacles (e : Entity) :
  In e (projectObstacles st d) <->
  l_obstacles (layers st) = true /\
  exists obs, In obs (obstacles d) /\ In e (obstacleOut st obs).
Proof.
  unfold projectObstacles. destruct (l_obstacles (layers st)).
  - rewrite in_flat_map. tauto.
  - simpl. split; [tauto | intros [? _]; discriminate].
Qed.

Lemma in_projectAirspace (e : Entity) :
  In e (projectAirspace st d) <->
  l_airspace (layers st) = true /\
  exists zones zone, airspace d = Some zones /\ In zone zones /\
                     In e (airspaceOut zone).
Proof.
  unfold projectAirspace. destruct (l_airspace (layers st)).
  - destruct (airspace d) as [zones|].
    + rewrite in_flat_map. split.
      * intros (zone & ? & ?). eauto 6.
      * intros (_ & ? & zone & [= <-] & ? & ?). eauto.
    + simpl. split; [tauto | intros (_ & ? & ? & ? & _); discriminate].
  - simpl. split; [tauto | intros [? _]; discriminate].
Qed.

Lemma in_projectProcedures (e : Entity) :
  In e (projectProcedures st d) <->
  exists procType, In e (proceduresOut st d procType).
Proof.
  unfold projectProcedures. rewrite in_flat_map. split.
  - intros (t & _ & H). eauto.
  - intros (t & H). exists t. split; [|exact H].
    destruct t; simpl; auto.
Qed.

Lemma kindOf_projectWaypoints (e : Entity) :
  In e (projectWaypoints st d) -> kindOf e = KPoint.
Proof.
  rewrite in_projectWaypoints. intros (_ & entry & _ & H).
  apply in_waypointOut in H as (-> & _). reflexivity.
Qed.

Lemma kindOf_projectObstacles (e : Entity) :
  In e (projectObstacles st d) -> kindOf e = KCylinder.
Proof.
  rewrite in_projectObstacles. intros (_ & obs & _ & H).
  apply in_obstacleOut in H as (-> & _). reflexivity.
Qed.

Lemma kindOf_projectAirspace (e : Entity) :
  In e (projectAirspace st d) -> kindOf e = KPolygon.
Proof.
  rewrite in_projectAirspace. intros (_ & zones & zone & _ & _ & H).
  apply in_airspaceOut in H as (ring & rest & _ & ->). reflexivity.
Qed.

Lemma kindOf_projectProcedures (e : Entity) :
  In e (projectProcedures st d) -> kindOf e = KPolyline.
Proof.
  rewrite in_projectProcedures. intros (t & H).
  apply in_proceduresOut in H as (_ & procs & proc & _ & _ & H).
  apply in_procedureOut in H as [H | (legs & idx & leg & _ & _ & H)].
  - apply in_routeOut in H as (cs & _ & _ & ->). reflexivity.
  - apply in_legOut in H as (cs & _ & _ & ->). reflexivity.
Qed.

(** An entity of the projection lies in the layer of its kind. *)
Lemma in_project (e : Entity) :
  In e (project st d) <->
  match kindOf e with
  | KPoint => In e (projectWaypoints st d)
  | KCylinder => In e (projectObstacles st d)
  | KPolygon => In e (projectAirspace st d)
  | KPolyline => e = runwayEntity \/ In e (projectProcedures st d)
  | KBare => False
  end.
Proof.
  unfold project. simpl In. rewrite !in_app_iff.
  pose proof (kindOf_projectWaypoints e) as Hw.
  pose proof (kindOf_projectObstacles e) as Ho.
  pose proof (kindOf_projectAirspace e) as Ha.
  pose proof (kindOf_projectProcedures e) as Hp.
  assert (Hr : runwayEntity = e -> kindOf e = KPolyline) by (intros <-; reflexivity).
  destruct (kindOf e); split; intros H;
    repeat match goal with
           | H : _ \/ _ |- _ => destruct H as [H|H]
           end;
    try (exfalso;
         (specialize (Hw H) || specialize (Ho H) || specialize (Ha H)
          || specialize (Hp H) || specialize (Hr H)); discriminate);
    try contradiction; auto.
Qed.

End Layers.

(** ** Filters *)

Section Filters.

Lemma truthyAt_spec (obj : gmap string bool) (key : string) :
  Js.truthyAt obj key = true <-> obj !! key = Some true.
Proof.
  unfold Js.truthyAt. destruct (obj !! key) as [[|]|]; split; congruence.
Qed.



Lemma truthyNumber_false (q : Q) :
  Js.truthyNumber q = false <-> (q == 0)%Q.
Proof.
  unfold Js.truthyNumber, Qeq. rewrite negb_false_iff, Z.eqb_eq. simpl. lia.
Qed.

Lemma orNumber_falsy (x : option Q) (dflt : Q) :
  x = None \/ (exists q, x = Some q /\ (q == 0)%Q) -> Js.orNumber x dflt = dflt.
Proof.
  intros [-> | (q & -> & Hq)]; simpl; [reflexivity|].
  apply truthyNumber_false in Hq. rewrite Hq. reflexivity.
Qed.


End Filters.

(** ** Waypoints *)


(** C10. A waypoint whose altitude is missing or zero gets the entity of the
    same waypoint at altitude 100: its position and the altitude printed in
    its description are 100 and nothing else differs. *)
Theorem waypoint_altitude_falsy (name : string) (wp : Waypoint) :
  wp_altitude wp = None \/ (exists q, wp_altitude wp = Some q /\ (q == 0)%Q) ->
  position (waypointEntity name wp)
    = Some (fromDegrees (wp_lon wp) (wp_lat wp) 100)
  /\ (exists before after,
        description (waypointEntity name wp)
        = before ++ [Lit "</p>
            <p><strong>고도:</strong> "; Num 100; Lit "m</p>
            <p><strong>출처:</strong> "] ++ after)
  /\ waypointEntity name wp
     = waypointEntity name
         {| wp_lat := wp_lat wp; wp_lon := wp_lon wp;
            wp_altitude := Some 100%Q; wp_sources := wp_sources wp |}.
Proof.
  intros H. unfold waypointEntity. simpl wp_altitude. simpl wp_lat.
  simpl wp_lon. simpl wp_sources.
  rewrite (orNumber_falsy _ 100 H).
  change (Js.orNumber (Some 100%Q) 100) with 100%Q.
  split; [reflexivity|]. split; [|reflexivity].
  simpl description. eexists [_; _; _; _; _; _], [_; _]. reflexivity.
Qed.


Lemma waypoint_altitude_falsy_witness :
  (exists q, wp_altitude Sample.ground = Some q /\ (q == 0)%Q)
  /\ position (waypointEntity "BRAVO" Sample.ground)
     = Some (fromDegrees 129.5 35.5 100)
  /\ waypointEntity "BRAVO" Sample.ground
     = waypointEntity "BRAVO"
         {| wp_lat := 35.5; wp_lon := 129.5; wp_altitude := Some 100%Q;
            wp_sources := ["NAV2"] |}.
Proof.
  assert (Hz : exists q, wp_altitude Sample.ground = Some q /\ (q == 0)%Q)
    by (exists 0%Q; split; reflexivity).
  split; [exact Hz|].
  destruct (waypoint_altitude_falsy "BRAVO" Sample.ground (or_intror Hz))
    as (Hp & _ & He).
  split; [exact Hp | exact He].
Defined.

(** ** Obstacles *)

Lemma obstacleEntity_inj (o1 o2 : Obstacle) :
  obstacleEntity o1 = obstacleEntity o2 -> o1 = o2.
Proof.
  destruct o1, o2. unfold obstacleEntity; simpl. intros H.
  injection H as; subst. reflexivity.
Qed.

(** What the obstacle callback does: an obstacle is in the viewer exactly
    when the obstacles layer is on, [obstacleTypes] holds [true] under its
    type and its id contains the search term up to case. *)
Lemma obstacle_shown_iff (st : AppState) (d : Dataset) (r : Refs) (obs : Obstacle) :
  is_Some (viewerRef r) -> data st = Some d -> In obs (obstacles d) ->
  In (obstacleEntity obs) (shown (renderEffect st r)) <->
    l_obstacles (layers st) = true /\
    obstacleTypes st !! obs_type obs = Some true /\
    containsIgnoringCase (obs_id obs) (searchTerm st).
Proof.
  intros [old Hold] Hd Hin.
  rewrite (renderEffect_project st d r old Hold Hd). unfold shown; simpl viewerRef.
  rewrite in_project. change (kindOf (obstacleEntity obs)) with KCylinder.
  cbv iota. rewrite in_projectObstacles.
  rewrite <- searchRejects_spec, <- truthyAt_spec. split.
  - intros (Hl & obs' & Hin' & Hout).
    apply in_obstacleOut in Hout as (Heq & Ht & Hs).
    apply obstacleEntity_inj in Heq as <-. auto.
  - intros (Hl & Ht & Hs). split; [exact Hl|].
    exists obs. split; [exact Hin|]. apply in_obstacleOut. auto.
Qed.

(** A type that is not a key of [obstacleTypes] reads as [undefined] at the
    guard of the callback, which returns before the colour fallback. *)
Lemma obstacle_untoggled_type_skipped (st : AppState) (obs : Obstacle) (s : Scene) :
  obstacleTypes st !! obs_type obs = None -> exec (addObstacle st obs) s = s.
Proof.
  intros H. unfold addObstacle, Js.truthyAt. rewrite H. reflexivity.
Qed.

(** The colour fallback for a type outside [OBSTACLE_COLORS]. *)
Lemma obstacleColor_fallback (type : string) :
  OBSTACLE_COLORS !! type = None -> obstacleColor type = COLORS.obstacle_etc.
Proof. intros H. unfold obstacleColor. rewrite H. reflexivity. Qed.

(** C2. The obstacle [crane] has a type outside the six recognized ones; with
    the obstacles layer on and an empty search term, which its id contains,
    the effect leaves only the runway in the viewer: the obstacle is not
    shown. *)
Theorem obstacle_unrecognized_type_hidden :
  let st := Sample.loaded Sample.craneData ∅ "" in
  l_obstacles (layers st) = true
  /\ obstacleTypes st !! obs_type Sample.crane = None
  /\ containsIgnoringCase (obs_id Sample.crane) (searchTerm st)
  /\ shown (renderEffect st Sample.freshRefs) = [runwayEntity]
  /\ ~ In (obstacleEntity Sample.crane) (shown (renderEffect st Sample.freshRefs)).
Proof.
  intros st. split; [reflexivity|]. split; [reflexivity|].
  split; [apply containsIgnoringCase_empty|].
  assert (H : shown (renderEffect st Sample.freshRefs) = [runwayEntity])
    by (vm_compute; reflexivity).
  split; [exact H|]. rewrite H. intros [Heq|[]]. discriminate Heq.
Qed.

(** C3. The obstacle [windmill] has an unrecognized type and an id that
    contains the search term. Its entity would be coloured with the ETC
    fallback, and is shown that way once [obstacleTypes] has an entry for the
    type; with the six initial entries the effect shows the tower next to it
    and drops the windmill. *)
Theorem obstacle_fallback_unreachable :
  let st := Sample.loaded Sample.windmillData ∅ "-" in
  let st' :=
    {| data := data st; layers := layers st; waypointSources := waypointSources st;
       obstacleTypes := toggleObstacleType "Windmill" (obstacleTypes st);
       searchTerm := searchTerm st |} in
  l_obstacles (layers st) = true
  /\ containsIgnoringCase (obs_id Sample.windmill) (searchTerm st)
  /\ cyl_outlineColor <$> cylinder (obstacleEntity Sample.windmill)
     = Some COLORS.obstacle_etc
  /\ shown (renderEffect st' Sample.freshRefs)
     = [runwayEntity; obstacleEntity Sample.tower; obstacleEntity Sample.windmill]
  /\ shown (renderEffect st Sample.freshRefs)
     = [runwayEntity; obstacleEntity Sample.tower].
Proof.
  intros st st'. split; [reflexivity|]. split.
  - exists "W", "-", "7". split; reflexivity.
  - split; [reflexivity|]. split; vm_compute; reflexivity.
Qed.

(** ** Airspace *)





(** ** Procedures *)

Section Procedures.

Variables (st : AppState) (d : Dataset) (r : Refs).
Variables (procType : ProcType) (procs : list Procedure) (proc : Procedure).

Hypothesis viewer_there : is_Some (viewerRef r).
Hypothesis data_there : data st = Some d.
Hypothesis layer_on : layerOf procType (layers st) = true.
Hypothesis procs_there : proceduresOf procType (procedures d) = Some procs.
Hypothesis proc_listed : In proc procs.




End Procedures.











(** ** The search term, determinism and re-rendering *)

Section Rerender.

Lemma filter_none {A : Type} (f : A -> bool) (l : list A) :
  (forall x, In x l -> f x = false) -> List.filter f l = [].
Proof.
  induction l as [|x l IH]; intros H; simpl; [reflexivity|].
  rewrite (H x (or_introl eq_refl)). apply IH. intros y Hy. apply H. right. exact Hy.
Qed.



(** The airspace and procedures layers read the layer toggles only. *)
Lemma projectAirspace_layers (st1 st2 : AppState) (d : Dataset) :
  layers st1 = layers st2 -> projectAirspace st1 d = projectAirspace st2 d.
Proof. intros H. unfold projectAirspace. rewrite H. reflexivity. Qed.

Lemma projectProcedures_layers (st1 st2 : AppState) (d : Dataset) :
  layers st1 = layers st2 -> projectProcedures st1 d = projectProcedures st2 d.
Proof.
  intros H. unfold projectProcedures, proceduresOut. rewrite H. reflexivity.
Qed.

Lemma shown_renderEffect (st : AppState) (r : Refs) :
  shown (renderEffect st r)
  = match viewerRef r, data st with
    | Some _, Some d => project st d
    | _, _ => shown r
    end.
Proof.
  destruct (viewerRef r) as [old|] eqn:Hv.
  - destruct (data st) as [d|] eqn:Hd.
    + rewrite (renderEffect_project st d r old Hv Hd). reflexivity.
    + rewrite renderEffect_idle by auto. unfold shown. rewrite Hv. reflexivity.
  - rewrite renderEffect_idle by auto. unfold shown. rewrite Hv. reflexivity.
Qed.

Lemma renderEffect_idempotent (st : AppState) (r : Refs) :
  renderEffect st (renderEffect st r) = renderEffect st r.
Proof.
  destruct (viewerRef r) as [old|] eqn:Hv.
  - destruct (data st) as [d|] eqn:Hd.
    + rewrite (renderEffect_project st d r old Hv Hd).
      apply (renderEffect_project st d _ (project st d)); [reflexivity | exact Hd].
    + rewrite !renderEffect_idle; auto.
  - rewrite (renderEffect_idle st r); auto. apply renderEffect_idle. auto.
Qed.

End Rerender.



(** C8. With the data in place, the effect leaves the same entities, in the
    same order and with the same attributes, whatever the viewer and
    [entitiesRef.current] held before; running it again on its own result
    changes nothing. *)
Theorem renderEffect_deterministic (st : AppState) (d : Dataset) (r1 r2 : Refs) :
  data st = Some d -> is_Some (viewerRef r1) -> is_Some (viewerRef r2) ->
  renderEffect st r1 = renderEffect st r2
  /\ shown (renderEffect st r1) = shown (renderEffect st r2)
  /\ length (shown (renderEffect st r1)) = length (shown (renderEffect st r2))
  /\ shown (renderEffect st (renderEffect st r1)) = shown (renderEffect st r1).
Proof.
  intros Hd [old1 H1] [old2 H2].
  rewrite renderEffect_idempotent.
  rewrite (renderEffect_project st d r1 old1 H1 Hd).
  rewrite (renderEffect_project st d r2 old2 H2 Hd). auto.
Qed.

Lemma renderEffect_deterministic_witness :
  let st := Sample.loaded Sample.waypointData Sample.nav1 "" in
  data st = Some Sample.waypointData
  /\ is_Some (viewerRef Sample.freshRefs)
  /\ is_Some (viewerRef Sample.usedRefs)
  /\ renderEffect st Sample.freshRefs = renderEffect st Sample.usedRefs
  /\ shown (renderEffect st Sample.freshRefs)
     = [runwayEntity; waypointEntity "ALPHA" Sample.alpha].
Proof.
  intros st.
  assert (H1 : is_Some (viewerRef Sample.freshRefs)) by (eexists; reflexivity).
  assert (H2 : is_Some (viewerRef Sample.usedRefs)) by (eexists; reflexivity).
  do 3 (split; [assumption || reflexivity|]).
  destruct (renderEffect_deterministic st Sample.waypointData
              Sample.freshRefs Sample.usedRefs eq_refl H1 H2) as (H & _).
  split; [exact H|]. vm_compute. reflexivity.
Defined.

(** C9. The effect replaces what the viewer held: with a viewer and the data
    in place the viewer holds the projection and nothing else. Running the
    effect any number of times in a row with the same state gives what one
    run gives, so the number of entities does not grow. *)
Theorem rerender_replaces (st : AppState) (r : Refs) (n : nat) :
  Nat.iter (S n) (renderEffect st) r = renderEffect st r
  /\ length (shown (Nat.iter (S n) (renderEffect st) r))
     = length (shown (renderEffect st r))
  /\ shown (renderEffect st r)
     = match viewerRef r, data st with
       | Some _, Some d => project st d
       | _, _ => shown r
       end.
Proof.
  assert (H : Nat.iter (S n) (renderEffect st) r = renderEffect st r).
  { induction n as [|n IH]; [reflexivity|].
    rewrite Nat.iter_succ, IH. apply renderEffect_idempotent. }
  rewrite H. split; [reflexivity|]. split; [reflexivity|].
  apply shown_renderEffect.
Qed.

(** ** The examples of the specification *)

(** One waypoint ALPHA with source NAV1, the source switched on, no search
    term: exactly one waypoint entity, at (129.0, 35.0, 100). *)
Example spec_example_alpha :
  let st := Sample.loaded (Sample.alphaData Sample.alpha) Sample.nav1 "" in
  ref_waypoints (entitiesRef (renderEffect st Sample.freshRefs))
  = [waypointEntity "ALPHA" Sample.alpha]
  /\ position (waypointEntity "ALPHA" Sample.alpha)
     = Some (fromDegrees 129.0 35.0 100).
Proof. split; vm_compute; reflexivity. Qed.

(** The same waypoint under the search term "beta": no waypoint entity. *)
Example spec_example_beta :
  let st := Sample.loaded (Sample.alphaData Sample.alpha) Sample.nav1 "beta" in
  ref_waypoints (entitiesRef (renderEffect st Sample.freshRefs)) = []
  /\ shown (renderEffect st Sample.freshRefs) = [runwayEntity].
Proof. split; vm_compute; reflexivity. Qed.

(** A tower with the Tower toggle switched off is left out. *)
Example spec_example_tower_off :
  let d := {| waypoints := []; obstacles := [Sample.tower42]; airspace := None;
              procedures := Sample.noProcedures |} in
  let st := {| data := Some d; layers := initialLayers; waypointSources := ∅;
               obstacleTypes := toggleObstacleType "Tower" initialObstacleTypes;
               searchTerm := "" |} in
  obstacleTypes st !! "Tower" = Some false
  /\ shown (renderEffect st Sample.freshRefs) = [runwayEntity]
  /\ shown (renderEffect (Sample.loaded d ∅ "") Sample.freshRefs)
     = [runwayEntity; obstacleEntity Sample.tower42].
Proof. repeat split; vm_compute; reflexivity. Qed.

(** A zone with an empty coordinates array is left out. *)
Example spec_example_ringless_zone :
  let d := {| waypoints := []; obstacles := []; airspace := Some [Sample.ringlessZone];
              procedures := Sample.noProcedures |} in
  shown (renderEffect (Sample.loaded d ∅ "") Sample.freshRefs) = [runwayEntity].
Proof. vm_compute. reflexivity. Qed.

(** ** The loader *)

Section Loader.





End Loader.





(** ** The search box *)

Section Search.



Lemma truthyString_toLowerCase (s : string) :
  Js.truthyString (Js.toLowerCase s) = Js.truthyString s.
Proof. destruct s; reflexivity. Qed.

Lemma searchRejects_lower (t1 t2 text : string) :
  Js.toLowerCase t1 = Js.toLowerCase t2 ->
  searchRejects t1 text = searchRejects t2 text.
Proof.
  intros H. unfold searchRejects.
  rewrite <- (truthyString_toLowerCase t1), <- (truthyString_toLowerCase t2), H.
  reflexivity.
Qed.


(** Two states that agree on everything but the search term, and whose
    terms reject the same texts, are projected alike. *)
Lemma project_search_ext (st : AppState) (d : Dataset) (t1 t2 : string) :
  (forall text, searchRejects t1 text = searchRejects t2 text) ->
  project (setSearchTerm t1 st) d = project (setSearchTerm t2 st) d
  /\ projectRef (setSearchTerm t1 st) d = projectRef (setSearchTerm t2 st) d.
Proof.
  intros H.
  assert (Hw : projectWaypoints (setSearchTerm t1 st) d
               = projectWaypoints (setSearchTerm t2 st) d).
  { unfold projectWaypoints; simpl. destruct (l_waypoints (layers st)); [|reflexivity].
    apply flat_map_ext. intros entry. unfold waypointOut; simpl. rewrite H. reflexivity. }
  assert (Ho : projectObstacles (setSearchTerm t1 st) d
               = projectObstacles (setSearchTerm t2 st) d).
  { unfold projectObstacles; simpl. destruct (l_obstacles (layers st)); [|reflexivity].
    apply flat_map_ext. intros obs. unfold obstacleOut; simpl. rewrite H. reflexivity. }
  unfold project, projectRef. rewrite Hw, Ho.
  rewrite (projectAirspace_layers (setSearchTerm t1 st) (setSearchTerm t2 st) d eq_refl).
  rewrite (projectProcedures_layers (setSearchTerm t1 st) (setSearchTerm t2 st) d eq_refl).
  auto.
Qed.



End Search.

(** X3. The search ignores the case of the term itself: two terms that are
    equal up to the case of their letters leave the same entities in the
    viewer and in [entitiesRef.current]. *)
Theorem search_term_case_irrelevant (st : AppState) (r : Refs) (t1 t2 : string) :
  Js.toLowerCase t1 = Js.toLowerCase t2 ->
  renderEffect (setSearchTerm t1 st) r = renderEffect (setSearchTerm t2 st) r.
Proof.
  intros H. destruct (viewerRef r) as [old|] eqn:Hv.
  - destruct (data st) as [d|] eqn:Hd.
    + rewrite (renderEffect_project (setSearchTerm t1 st) d r old Hv Hd).
      rewrite (renderEffect_project (setSearchTerm t2 st) d r old Hv Hd).
      destruct (project_search_ext st d t1 t2
                  (fun text => searchRejects_lower t1 t2 text H)) as [-> ->].
      reflexivity.
    + rewrite !renderEffect_idle; auto.
  - rewrite !renderEffect_idle; auto.
Qed.

Lemma search_term_case_irrelevant_witness :
  let st := Sample.loaded Sample.waypointData Sample.nav1 "" in
  Js.toLowerCase "aLp" = Js.toLowerCase "ALP"
  /\ renderEffect (setSearchTerm "aLp" st) Sample.freshRefs
     = renderEffect (setSearchTerm "ALP" st) Sample.freshRefs.
Proof.
  intros st. split; [reflexivity|].
  apply (search_term_case_irrelevant st Sample.freshRefs "aLp" "ALP"). reflexivity.
Defined.



(** ** Order and number of the entities *)

Section Counting.









Lemma length_filter_le {A : Type} (p : A -> bool) (l : list A) :
  length (List.filter p l) <= length l.
Proof.
  induction l as [|x l IH]; simpl; [lia|]. destruct (p x); simpl; lia.
Qed.

End Counting.





(** X7. With a viewer and the data in place, the runway polyline is the
    first entity of the viewer and occurs there once, whatever the toggles,
    the search term and the data. *)
Theorem runway_first_and_once (st : AppState) (d : Dataset) (r : Refs) :
  is_Some (viewerRef r) -> data st = Some d ->
  exists rest,
    shown (renderEffect st r) = runwayEntity :: rest /\ ~ In runwayEntity rest.
Proof.
  intros [old Hold] Hd. rewrite (renderEffect_project st d r old Hold Hd).
  unfold shown, project; cbn [viewerRef]. eexists. split; [reflexivity|].
  rewrite !in_app_iff. intros [H | [H | [H | H]]].
  - apply kindOf_projectWaypoints in H. discriminate H.
  - apply kindOf_projectObstacles in H. discriminate H.
  - apply kindOf_projectAirspace in H. discriminate H.
  - apply in_projectProcedures in H as (t & H).
    apply in_proceduresOut in H as (_ & procs & proc & _ & _ & H).
    apply in_procedureOut in H as [H | (legs & idx & leg & _ & _ & H)].
    + apply in_routeOut in H as (cs & _ & _ & H). discriminate H.
    + apply in_legOut in H as (cs & _ & _ & H).
      apply (f_equal (fun e => pl_clampToGround <$> polyline e)) in H.
      discriminate H.
Qed.

Lemma runway_first_and_once_witness :
  let st := Sample.loaded Sample.procedureData ∅ "" in
  is_Some (viewerRef Sample.usedRefs)
  /\ data st = Some Sample.procedureData
  /\ exists rest,
       shown (renderEffect st Sample.usedRefs) = runwayEntity :: rest
       /\ ~ In runwayEntity rest.
Proof.
  intros st.
  assert (Hv : is_Some (viewerRef Sample.usedRefs)) by (eexists; reflexivity).
  split; [exact Hv|]. split; [reflexivity|].
  exact (runway_first_and_once st Sample.procedureData Sample.usedRefs Hv eq_refl).
Defined.

(** ** The toggles *)

Section Toggles.


Lemma setLayers_same (st : AppState) : setLayers (layers st) st = st.
Proof. destruct st; reflexivity. Qed.


Lemma toggle_keeps_types (ts : list string) (types : gmap string bool) (key : string) :
  Forall (fun t => is_Some (types !! t)) ts ->
  is_Some (fold_left (fun m t => toggleObstacleType t m) ts types !! key)
  <-> is_Some (types !! key).
Proof.
  revert types. induction ts as [|t ts IH]; intros types Hts; simpl; [tauto|].
  inversion Hts as [|? ? Ht Hts']; subst.
  assert (Hkeys : forall k, is_Some (toggleObstacleType t types !! k)
                            <-> is_Some (types !! k)).
  { intros k. unfold toggleObstacleType.
    destruct (decide (t = k)) as [->|Hne].
    - rewrite lookup_insert_eq. split; [intros _; exact Ht | eauto].
    - rewrite lookup_insert_ne by exact Hne. tauto. }
  rewrite IH; [apply Hkeys|].
  eapply Forall_impl; [exact Hts'|]. intros k Hk. apply Hkeys, Hk.
Qed.

End Toggles.


(** X9. With a viewer and the data in place, a layer that is switched off
    leaves nothing of its kind in the viewer: no point without the
    waypoints layer, no cylinder without the obstacles layer, no polygon
    without the airspace layer, and no polyline but the runway when the
    three procedure layers are off. *)
Theorem layer_off_hides_kind (st : AppState) (d : Dataset) (r : Refs) (e : Entity) :
  is_Some (viewerRef r) -> data st = Some d ->
  In e (shown (renderEffect st r)) ->
  (l_waypoints (layers st) = false -> kindOf e <> KPoint)
  /\ (l_obstacles (layers st) = false -> kindOf e <> KCylinder)
  /\ (l_airspace (layers st) = false -> kindOf e <> KPolygon)
  /\ (l_SID (layers st) = false -> l_STAR (layers st) = false ->
      l_APPROACH (layers st) = false -> kindOf e = KPolyline -> e = runwayEntity).
Proof.
  intros [old Hold] Hd Hin.
  rewrite (renderEffect_project st d r old Hold Hd) in Hin.
  unfold shown in Hin; cbn [viewerRef] in Hin. apply in_project in Hin.
  repeat split.
  - intros Hoff Hk. rewrite Hk in Hin. apply in_projectWaypoints in Hin as [Hon _].
    congruence.
  - intros Hoff Hk. rewrite Hk in Hin. apply in_projectObstacles in Hin as [Hon _].
    congruence.
  - intros Hoff Hk. rewrite Hk in Hin. apply in_projectAirspace in Hin as [Hon _].
    congruence.
  - intros H1 H2 H3 Hk. rewrite Hk in Hin. destruct Hin as [Heq | Hin]; [exact Heq|].
    apply in_projectProcedures in Hin as (t & Hin).
    apply in_proceduresOut in Hin as [Hon _].
    destruct t; simpl in Hon; congruence.
Qed.

Lemma layer_off_hides_kind_witness :
  let st := update (ToggleLayer "obstacles")
              (Sample.loaded Sample.windmillData ∅ "") in
  is_Some (viewerRef Sample.freshRefs)
  /\ data st = Some Sample.windmillData
  /\ In runwayEntity (shown (renderEffect st Sample.freshRefs))
  /\ l_obstacles (layers st) = false
  /\ kindOf runwayEntity <> KCylinder.
Proof.
  intros st.
  assert (Hv : is_Some (viewerRef Sample.freshRefs)) by (eexists; reflexivity).
  assert (Hin : In runwayEntity (shown (renderEffect st Sample.freshRefs)))
    by (left; reflexivity).
  split; [exact Hv|]. split; [reflexivity|]. split; [exact Hin|].
  split; [reflexivity|].
  apply (layer_off_hides_kind st Sample.windmillData Sample.freshRefs runwayEntity
           Hv eq_refl Hin).
  reflexivity.
Defined.

(** X10. A click on the toggle of an obstacle type that is a key of
    [obstacleTypes] flips that entry, leaves every other entry and the set
    of keys as they were, and is undone by a second click. *)
Theorem toggleObstacleType_round_trip (types : gmap string bool)
    (type : string) (b : bool) :
  types !! type = Some b ->
  toggleObstacleType type types !! type = Some (negb b)
  /\ (forall other, other <> type ->
        toggleObstacleType type types !! other = types !! other)
  /\ dom (toggleObstacleType type types) = dom types
  /\ toggleObstacleType type (toggleObstacleType type types) = types.
Proof.
  intros H.
  assert (Ht : Js.truthyAt types type = b) by (unfold Js.truthyAt; rewrite H; reflexivity).
  unfold toggleObstacleType at 1 2 3. rewrite Ht.
  split; [apply lookup_insert_eq|]. split.
  - intros other Hne. apply lookup_insert_ne. congruence.
  - split.
    + apply dom_insert_lookup_L. eauto.
    + unfold toggleObstacleType. rewrite Ht. unfold Js.truthyAt.
      rewrite lookup_insert_eq, insert_insert_eq, negb_involutive.
      apply insert_id, H.
Qed.

Lemma toggleObstacleType_round_trip_witness :
  initialObstacleTypes !! "Tower" = Some true
  /\ toggleObstacleType "Tower" initialObstacleTypes !! "Tower" = Some false
  /\ toggleObstacleType "Tower" (toggleObstacleType "Tower" initialObstacleTypes)
     = initialObstacleTypes.
Proof.
  assert (H : initialObstacleTypes !! "Tower" = Some true) by reflexivity.
  split; [exact H|].
  destruct (toggleObstacleType_round_trip initialObstacleTypes "Tower" true H)
    as (Hflip & _ & _ & Hback).
  split; [exact Hflip | exact Hback].
Defined.

(** X11. The panel lists one toggle per key of [obstacleTypes], so clicks
    only ever reach the six initial types. After any such clicks, with a
    viewer and the data in place, an obstacle whose type is none of the six
    is not in the viewer. *)
Theorem unlisted_type_never_shown (clicks : list string) (st : AppState)
    (d : Dataset) (r : Refs) (obs : Obstacle) :
  is_Some (viewerRef r) -> data st = Some d ->
  Forall (fun t => is_Some (initialObstacleTypes !! t)) clicks ->
  obstacleTypes st
  = fold_left (fun m t => toggleObstacleType t m) clicks initialObstacleTypes ->
  initialObstacleTypes !! obs_type obs = None ->
  ~ In (obstacleEntity obs) (shown (renderEffect st r)).
Proof.
  intros [old Hold] Hd Hclicks Htypes Hnone Hin.
  rewrite (renderEffect_project st d r old Hold Hd) in Hin.
  unfold shown in Hin; cbn [viewerRef] in Hin. apply in_project in Hin.
  change (kindOf (obstacleEntity obs)) with KCylinder in Hin. cbv iota in Hin.
  apply in_projectObstacles in Hin as (_ & obs' & _ & Hout).
  apply in_obstacleOut in Hout as (Heq & Ht & _).
  apply obstacleEntity_inj in Heq as <-.
  apply truthyAt_spec in Ht. rewrite Htypes in Ht.
  assert (Hsome : is_Some (initialObstacleTypes !! obs_type obs)).
  { apply (toggle_keeps_types clicks initialObstacleTypes _ Hclicks). eauto. }
  rewrite Hnone in Hsome. destruct Hsome as [? ?]. discriminate.
Qed.

Lemma unlisted_type_never_shown_witness :
  let clicks := ["Tower"; "ETC"; "Tower"] in
  let st := setObstacleTypes
              (fold_left (fun m t => toggleObstacleType t m) clicks initialObstacleTypes)
              (Sample.loaded Sample.windmillData ∅ "") in
  is_Some (viewerRef Sample.freshRefs)
  /\ data st = Some Sample.windmillData
  /\ Forall (fun t => is_Some (initialObstacleTypes !! t)) clicks
  /\ initialObstacleTypes !! obs_type Sample.windmill = None
  /\ ~ In (obstacleEntity Sample.windmill) (shown (renderEffect st Sample.freshRefs)).
Proof.
  intros clicks st.
  assert (Hv : is_Some (viewerRef Sample.freshRefs)) by (eexists; reflexivity).
  assert (Hc : Forall (fun t => is_Some (initialObstacleTypes !! t)) clicks)
    by (repeat constructor; eexists; reflexivity).
  split; [exact Hv|]. split; [reflexivity|]. split; [exact Hc|].
  split; [reflexivity|].
  apply (unlisted_type_never_shown clicks st Sample.windmillData Sample.freshRefs
           Sample.windmill Hv eq_refl Hc eq_refl eq_refl).
Defined.

(** ** The life of the component *)

Section Lifecycle.


Lemma step_without_viewer (c : Component) (ev : Event) :
  viewerRef (refs c) = None -> refs (step c ev) = refs c.
Proof. intros H. unfold step; simpl. apply renderEffect_idle. auto. Qed.

Lemma run_without_viewer (evs : list Event) (c : Component) :
  viewerRef (refs c) = None -> refs (run evs c) = refs c.
Proof.
  revert c. induction evs as [|ev evs IH]; intros c H; [reflexivity|].
  change (run (ev :: evs) c) with (run evs (step c ev)).
  rewrite IH; rewrite step_without_viewer; auto.
Qed.



End Lifecycle.

(** X12. The component starts with [loading] set, so its first render shows
    the loading notice and not the container; the Cesium effect, which runs
    after that render only, finds no container and creates no viewer. From
    then on, whatever the fetch returns and whatever the user clicks or
    types, [viewerRef.current] stays [null] and the render effect returns
    at its guard: no entity is ever added. *)
Theorem mounted_component_has_no_viewer (evs : list Event) :
  containerRendered (loading mount) = false
  /\ viewerRef (refs (run evs mount)) = None
  /\ shown (refs (run evs mount)) = []
  /\ refs (run evs mount) = initialRefs.
Proof.
  assert (H : refs (run evs mount) = initialRefs)
    by (rewrite run_without_viewer; reflexivity).
  rewrite H. repeat split; reflexivity.
Qed.



(** ** Geometry and labels *)

(** X14. The cylinder of an obstacle stands on the ground and reaches the
    elevation of the obstacle: it is centred at half the elevation and as
    long as the elevation, so its lower end is at height 0 and its upper end
    at the elevation; its top is narrower than its base. *)
Theorem obstacle_column_spans_elevation (obs : Obstacle) :
  exists centre column,
    position (obstacleEntity obs)
    = Some (fromDegrees (obs_lon obs) (obs_lat obs) centre)
    /\ cylinder (obstacleEntity obs) = Some column
    /\ (centre - cyl_length column / 2 == 0)%Q
    /\ (centre + cyl_length column / 2 == obs_elevation obs)%Q
    /\ (cyl_topRadius column < cyl_bottomRadius column)%Q.
Proof.
  eexists _, _. split; [reflexivity|]. split; [reflexivity|]. simpl.
  split; [ring|]. split; [field | reflexivity].
Qed.

(** X15. For a zone whose top altitude is missing or zero the polygon and
    its description disagree: the polygon is extruded to 3000 with every
    vertex at 3000, while the description prints an upper limit of 0. *)
Theorem airspace_top_default_mismatch (zone : Airspace) (ring : list Coord) :
  absentOrZero (as_top_alt zone) ->
  (exists area,
     polygon (airspaceEntity zone ring) = Some area
     /\ pg_extrudedHeight area = 3000%Q
     /\ pg_hierarchy area = mkPolygonHierarchy (polylineAt 3000 ring))
  /\ exists before,
       description (airspaceEntity zone ring)
       = before ++ [Lit "m</p>
            <p><strong>상한:</strong> "; Num 0; Lit "m</p>
          "].
Proof.
  intros H. unfold airspaceEntity.
  rewrite (orNumber_falsy _ 3000 H), (orNumber_falsy _ 0 H). split.
  - eexists. split; [reflexivity|]. split; reflexivity.
  - simpl description. eexists [_; _; _; _]. reflexivity.
Qed.

Lemma airspace_top_default_mismatch_witness :
  absentOrZero (as_top_alt Sample.triangleZone)
  /\ exists area,
       polygon (airspaceEntity Sample.triangleZone Sample.triangle) = Some area
       /\ pg_extrudedHeight area = 3000%Q
       /\ pg_hierarchy area = mkPolygonHierarchy (polylineAt 3000 Sample.triangle).
Proof.
  assert (H : absentOrZero (as_top_alt Sample.triangleZone)) by (left; reflexivity).
  split; [exact H|].
  exact (proj1 (airspace_top_default_mismatch Sample.triangleZone Sample.triangle H)).
Defined.

(** ** The stats bar *)

Section Stats.

Lemma length_filter_flat_map_le {A B : Type} (p : B -> bool) (out : A -> list B)
    (l : list A) :
  (forall x, length (List.filter p (out x)) <= 1) ->
  length (List.filter p (flat_map out l)) <= length l.
Proof.
  intros H. induction l as [|x l IH]; simpl; [lia|].
  rewrite List.filter_app, length_app. specialize (H x). lia.
Qed.

Lemma routes_of_procedureOut (procType : ProcType) (proc : Procedure) :
  length (List.filter isRoute (procedureOut procType proc)) <= 1.
Proof.
  unfold procedureOut. rewrite List.filter_app, length_app.
  rewrite (filter_none isRoute (legsOut procType proc)).
  - pose proof (length_filter_le isRoute (routeOut procType proc)) as H.
    assert (length (routeOut procType proc) <= 1); [|simpl; lia].
    unfold routeOut. destruct (proc_coordinates proc) as [cs|]; [|simpl; lia].
    destruct (2 <=? length cs); simpl; lia.
  - intros e He. unfold legsOut in He. destruct (proc_legs proc) as [legs|]; [|destruct He].
    apply in_legsOutFrom in He as (idx & leg & _ & He).
    apply in_legOut in He as (cs & _ & _ & ->). reflexivity.
Qed.

Lemma routes_of_proceduresOut (st : AppState) (d : Dataset) (procType : ProcType)
    (procs : list Procedure) :
  proceduresOf procType (procedures d) = Some procs ->
  length (List.filter isRoute (proceduresOut st d procType)) <= length procs.
Proof.
  intros H. unfold proceduresOut. rewrite H.
  destruct (layerOf procType (layers st)); [|simpl; lia].
  apply length_filter_flat_map_le. intros proc. apply routes_of_procedureOut.
Qed.

End Stats.

(** X16. The stats bar adds up the lengths of the three procedure lists and
    fails when one of them is missing, a case the render effect lets pass.
    When the three are there, with a viewer and the data in place, the
    number of route polylines in the viewer is at most the number of
    procedures the stats bar shows. *)
Theorem stats_procedures_bound_routes (st : AppState) (d : Dataset) (r : Refs) :
  is_Some (viewerRef r) -> data st = Some d ->
  (statsProcedures (data st) = None <->
     procs_SID (procedures d) = None \/ procs_STAR (procedures d) = None
     \/ procs_APPROACH (procedures d) = None)
  /\ forall n, statsProcedures (data st) = Some n ->
       length (List.filter isRoute (shown (renderEffect st r))) <= n.
Proof.
  intros [old Hold] Hd. rewrite Hd. unfold statsProcedures. split.
  - destruct (procs_SID (procedures d)), (procs_STAR (procedures d)),
      (procs_APPROACH (procedures d)); split; try discriminate; auto;
      intros [H | [H | H]]; discriminate H.
  - intros n Hn.
    rewrite (renderEffect_project st d r old Hold Hd).
    unfold shown, project; cbn [viewerRef]. cbn [List.filter].
    change (isRoute runwayEntity) with false. cbv iota.
    rewrite !List.filter_app.
    rewrite (filter_none isRoute (projectWaypoints st d)).
    2: { intros e H. apply in_projectWaypoints in H as (_ & entry & _ & H).
         apply in_waypointOut in H as (-> & _). reflexivity. }
    rewrite (filter_none isRoute (projectObstacles st d)).
    2: { intros e H. apply in_projectObstacles in H as (_ & obs & _ & H).
         apply in_obstacleOut in H as (-> & _). reflexivity. }
    rewrite (filter_none isRoute (projectAirspace st d)).
    2: { intros e H. apply in_projectAirspace in H as (_ & zones & zone & _ & _ & H).
         apply in_airspaceOut in H as (ring & rest & _ & ->). reflexivity. }
    cbn [app].
    change (projectProcedures st d)
      with (proceduresOut st d SID ++ proceduresOut st d STAR
            ++ proceduresOut st d APPROACH ++ []).
    rewrite !List.filter_app, !length_app. cbn [List.filter length].
    destruct (procs_SID (procedures d)) as [sid|] eqn:E1; [|discriminate Hn].
    destruct (procs_STAR (procedures d)) as [star|] eqn:E2; [|discriminate Hn].
    destruct (procs_APPROACH (procedures d)) as [app|] eqn:E3; [|discriminate Hn].
    injection Hn as <-.
    pose proof (routes_of_proceduresOut st d SID sid E1).
    pose proof (routes_of_proceduresOut st d STAR star E2).
    pose proof (routes_of_proceduresOut st d APPROACH app E3).
    lia.
Qed.

Lemma stats_procedures_bound_routes_witness :
  let st := Sample.loaded Sample.procedureData ∅ "" in
  is_Some (viewerRef Sample.freshRefs)
  /\ data st = Some Sample.procedureData
  /\ statsProcedures (data st) = None
  /\ length (shown (renderEffect st Sample.freshRefs)) = 3%nat.
Proof.
  intros st.
  assert (Hv : is_Some (viewerRef Sample.freshRefs)) by (eexists; reflexivity).
  split; [exact Hv|]. split; [reflexivity|]. split; [|reflexivity].
  apply (proj1 (stats_procedures_bound_routes st Sample.procedureData
                  Sample.freshRefs Hv eq_refl)).
  right. left. reflexivity.
Defined.
